(** * A stopwatch on a 4-digit seven-segment display (mbed firmware)

    Shallow embedding of [src/main.cpp]: the time counter bumped by the
    ticker interrupt, the bit-banged shift-register driver, the digit
    multiplexer and one pass of the polling loop, followed by the
    properties of the specification that concern them. *)

From Stdlib Require Import ZArith List Bool Lia String Ascii.
From Stdlib Require Import Floats.SpecFloat.
Import ListNotations.
Local Open Scope Z_scope.

(** ** Machine integers

    [int] is the 32-bit two's-complement integer of the target, kept as a
    [Z] with the wrap-around of an out-of-range result written out;
    [uint8_t] is a [Z] reduced modulo 256. *)
Module MachInt.

Definition int_min : Z := - 2 ^ 31.
Definition int_max : Z := 2 ^ 31 - 1.

Definition wrap_int (z : Z) : Z := (z + 2 ^ 31) mod 2 ^ 32 - 2 ^ 31.

Definition in_int (z : Z) : Prop := int_min <= z <= int_max.

(** [static_cast<uint8_t>(z)] and the implicit narrowing on assignment. *)
Definition to_uint8 (z : Z) : Z := z mod 256.

Definition is_uint8 (z : Z) : Prop := 0 <= z < 256.

End MachInt.

(** ** The time counter (lines 50-63, and the reset of line 127) *)
Module Clock.
Import MachInt.

(** The two globals [seconds] and [minutes]. *)
Record time : Type := mkTime { seconds : Z; minutes : Z }.

Definition initial : time := mkTime 0 0.

(** [updateTime]: pre-increment [seconds]; on reaching 60 clear it and
    pre-increment [minutes], which is cleared on reaching 100. *)
Definition updateTime (t : time) : time :=
  let s := wrap_int (seconds t + 1) in
  if 60 <=? s then
    let m := wrap_int (minutes t + 1) in
    if 100 <=? m then mkTime 0 0 else mkTime 0 m
  else mkTime s (minutes t).

(** [seconds = minutes = 0;] stores 0 to [minutes], then to [seconds]. *)
Definition store_minutes (v : Z) (t : time) : time := mkTime (seconds t) v.
Definition store_seconds (v : Z) (t : time) : time := mkTime v (minutes t).

Definition reset (t : time) : time := store_seconds 0 (store_minutes 0 t).

(** The two operations that touch the counters, and runs of them. *)
Inductive op : Type := Tick | Reset.

Definition apply_op (t : time) (o : op) : time :=
  match o with
  | Tick => updateTime t
  | Reset => reset t
  end.

Definition run (ops : list op) (t : time) : time := fold_left apply_op ops t.

(** The same with the two stores of a reset taken apart, so that a
    ticker callback may fall between them. *)
Inductive micro_op : Type := MTick | MClearMinutes | MClearSeconds.

Definition apply_micro (t : time) (o : micro_op) : time :=
  match o with
  | MTick => updateTime t
  | MClearMinutes => store_minutes 0 t
  | MClearSeconds => store_seconds 0 t
  end.

(** [n] consecutive ticker callbacks. *)
Fixpoint ticks (n : nat) (t : time) : time :=
  match n with
  | O => t
  | S k => ticks k (updateTime t)
  end.

Definition in_range (t : time) : Prop :=
  (0 <= seconds t <= 59) /\ (0 <= minutes t <= 99).

(** [int timeValue = minutes * 100 + seconds;] (line 144) *)
Definition timeValue (t : time) : Z :=
  wrap_int (wrap_int (minutes t * 100) + seconds t).

(** The seconds counted since the counters last read 00:00, and the
    reading after a given number of seconds. *)
Definition elapsed (t : time) : Z := minutes t * 60 + seconds t.

Definition of_elapsed (n : Z) : time :=
  mkTime (n mod 60) ((n / 60) mod 100).

End Clock.

(** ** Output pins and the shift-register driver (lines 8-10, 70-84) *)
Module ShiftReg.
Import MachInt.

(** The three [DigitalOut] objects. *)
Inductive pin : Type := LatchPin | ClockPin | DataPin.

(** What the firmware does to the outside world, in program order: a
    level written to a pin, or [ThisThread::sleep_for] of so many
    milliseconds. *)
Inductive event : Type :=
| Write (p : pin) (v : Z)
| Sleep (ms : Z).

(** The pin levels last written, and everything done so far. *)
Record hw : Type := mkHw {
  latchPin : Z;
  clockPin : Z;
  dataPin : Z;
  log : list event
}.

(** [latchPin = clockPin = dataPin = 0;] (line 119) leaves this state. *)
Definition hw_init : hw := mkHw 0 0 0 [].

(** [pin = v;] *)
Definition set_pin (p : pin) (v : Z) (h : hw) : hw :=
  match p with
  | LatchPin => mkHw v (clockPin h) (dataPin h) (log h ++ [Write p v])
  | ClockPin => mkHw (latchPin h) v (dataPin h) (log h ++ [Write p v])
  | DataPin => mkHw (latchPin h) (clockPin h) v (log h ++ [Write p v])
  end.

Definition sleep_for (ms : Z) (h : hw) : hw :=
  mkHw (latchPin h) (clockPin h) (dataPin h) (log h ++ [Sleep ms]).

(** Body of the loop of [shiftOut] for one value of [i]. *)
Definition shiftOut_body (value : Z) (i : Z) (h : hw) : hw :=
  let h := set_pin DataPin (Z.land (Z.shiftr value i) 1) h in
  let h := set_pin ClockPin 1 h in
  set_pin ClockPin 0 h.

(** [for (int i = n - 1; i >= 0; --i) body]: the argument counts the
    iterations left, so the loop variable is its predecessor. *)
Fixpoint shiftOut_loop (n : nat) (value : Z) (h : hw) : hw :=
  match n with
  | O => h
  | S i => shiftOut_loop i value (shiftOut_body value (Z.of_nat i) h)
  end.

(** [void shiftOut(uint8_t value)]: the loop starts at [i = 7]. *)
Definition shiftOut (value : Z) (h : hw) : hw :=
  shiftOut_loop 8 (to_uint8 value) h.

(** [void writeToShiftRegister(uint8_t segments, uint8_t digit)] *)
Definition writeToShiftRegister (segments digit : Z) (h : hw) : hw :=
  let h := set_pin LatchPin 0 h in
  let h := shiftOut segments h in
  let h := shiftOut digit h in
  set_pin LatchPin 1 h.

(** *** Reading a log *)

(** The three pin writes that clock out one bit. *)
Definition bit_events (b : bool) : list event :=
  [Write DataPin (Z.b2z b); Write ClockPin 1; Write ClockPin 0].

(** The bits of a byte, bit 7 first. *)
Definition msb_first (value : Z) : list bool :=
  map (Z.testbit value) [7; 6; 5; 4; 3; 2; 1; 0].

Definition byte_events (value : Z) : list event :=
  flat_map bit_events (msb_first value).

(** A clock pulse is a high level on the clock line directly followed by
    a low one. *)
Fixpoint clock_pulses (l : list event) : nat :=
  match l with
  | Write ClockPin 1 :: ((Write ClockPin 0 :: _) as rest) =>
      S (clock_pulses rest)
  | _ :: rest => clock_pulses rest
  | [] => O
  end.

(** Rising edges of the latch line: each one copies the register to the
    outputs. *)
Definition is_latch_high (e : event) : bool :=
  match e with
  | Write LatchPin v => negb (v =? 0)
  | _ => false
  end.

Definition latch_pulses (l : list event) : nat :=
  List.length (filter is_latch_high l).

(** The time slept, in milliseconds. *)
Fixpoint total_sleep (l : list event) : Z :=
  match l with
  | [] => 0
  | Sleep ms :: rest => ms + total_sleep rest
  | Write _ _ :: rest => total_sleep rest
  end.

(** The discipline on the three wires: the clock line is only written
    while the latch line is low, and the data line only while the clock
    line is low.  The first two arguments are the levels of the latch
    and clock lines before the events. *)
Fixpoint bus_ok (latch clock : Z) (l : list event) : bool :=
  match l with
  | [] => true
  | Write LatchPin v :: rest => bus_ok v clock rest
  | Write ClockPin v :: rest => (latch =? 0) && bus_ok latch v rest
  | Write DataPin _ :: rest => (clock =? 0) && bus_ok latch clock rest
  | Sleep _ :: rest => bus_ok latch clock rest
  end.

(** *** The register at the far end of the wires

    The pins drive a serial-in register with an output latch (line 7):
    16 bits, taking the level of the data line as its new low bit on
    each rising edge of the clock line, and copying its bits to the
    outputs on each rising edge of the latch line. *)

(** A pin is high when the value written to it is not 0. *)
Definition level (v : Z) : Z := if v =? 0 then 0 else 1.

Record receiver : Type := mkReceiver {
  rx_latch : Z;
  rx_clock : Z;
  rx_data : Z;
  rx_shift : Z;
  rx_out : Z
}.

Definition receive (r : receiver) (e : event) : receiver :=
  match e with
  | Write DataPin v =>
      mkReceiver (rx_latch r) (rx_clock r) (level v) (rx_shift r) (rx_out r)
  | Write ClockPin v =>
      let shifted :=
        if (rx_clock r =? 0) && (level v =? 1)
        then (2 * rx_shift r + rx_data r) mod 2 ^ 16
        else rx_shift r in
      mkReceiver (rx_latch r) (level v) (rx_data r) shifted (rx_out r)
  | Write LatchPin v =>
      let out :=
        if (rx_latch r =? 0) && (level v =? 1)
        then rx_shift r
        else rx_out r in
      mkReceiver (level v) (rx_clock r) (rx_data r) (rx_shift r) out
  | Sleep _ => r
  end.

Definition received (l : list event) (r : receiver) : receiver :=
  fold_left receive l r.

End ShiftReg.

(** ** The digit multiplexer (lines 27-42, 91-111) *)
Module Display.
Import MachInt ShiftReg.

(** A read that can go wrong: [None] stands for a read outside an array,
    whose outcome the language leaves undefined. *)
Notation "x <- c ;; k" :=
  (match c with Some x => k | None => None end)
  (at level 61, c at next level, right associativity).

(** [tbl[i]] with an [int] index. *)
Definition index (tbl : list Z) (i : Z) : option Z :=
  if i <? 0 then None else nth_error tbl (Z.to_nat i).

(** [const uint8_t digitPattern[10]] *)
Definition digitPattern : list Z :=
  [ to_uint8 (Z.lnot 0x3F);
    to_uint8 (Z.lnot 0x06);
    to_uint8 (Z.lnot 0x5B);
    to_uint8 (Z.lnot 0x4F);
    to_uint8 (Z.lnot 0x66);
    to_uint8 (Z.lnot 0x6D);
    to_uint8 (Z.lnot 0x7D);
    to_uint8 (Z.lnot 0x07);
    to_uint8 (Z.lnot 0x7F);
    to_uint8 (Z.lnot 0x6F) ].

(** [const uint8_t digitPos[4]] *)
Definition digitPos : list Z := [0x01; 0x02; 0x04; 0x08].

(** [int digits[4]]: [/] and [%] on [int] truncate towards zero. *)
Definition digits (number : Z) : list Z :=
  [ Z.rem (Z.quot number 1000) 10;
    Z.rem (Z.quot number 100) 10;
    Z.rem (Z.quot number 10) 10;
    Z.rem number 10 ].

(** Lines 102-106: the segment byte of slot [i]. *)
Definition segments_at (ds : list Z) (showDecimal : bool) (decimalPos i : Z)
  : option Z :=
  d <- index ds i ;;
  segments <- index digitPattern d ;;
  Some (if showDecimal && (i =? decimalPos)
        then to_uint8 (Z.land segments (Z.lnot 0x80))
        else segments).

(** One turn of the loop of [displayNumber]. *)
Definition displayNumber_body (ds : list Z) (showDecimal : bool)
  (decimalPos i : Z) (h : hw) : option hw :=
  segments <- segments_at ds showDecimal decimalPos i ;;
  pos <- index digitPos i ;;
  Some (sleep_for 2 (writeToShiftRegister segments pos h)).

(** [for (int i = ...; i < 4; ++i)], with [n] turns left. *)
Fixpoint displayNumber_loop (n : nat) (ds : list Z) (showDecimal : bool)
  (decimalPos i : Z) (h : hw) : option hw :=
  match n with
  | O => Some h
  | S k =>
      h' <- displayNumber_body ds showDecimal decimalPos i h ;;
      displayNumber_loop k ds showDecimal decimalPos (i + 1) h'
  end.

(** [void displayNumber(int number, bool showDecimal, int decimalPos)] *)
Definition displayNumber (number : Z) (showDecimal : bool) (decimalPos : Z)
  (h : hw) : option hw :=
  displayNumber_loop 4 (digits number) showDecimal decimalPos 0 h.

(** *** Reading what was displayed *)

(** Everything one turn of the loop does for a segment byte and a digit
    mask. *)
Definition frame_events (segments pos : Z) : list event :=
  [Write LatchPin 0] ++ byte_events segments ++ byte_events pos
    ++ [Write LatchPin 1; Sleep 2].

(** The decimal point of a segment byte is lit when bit 7 is 0. *)
Definition point_lit (segments : Z) : bool := negb (Z.testbit segments 7).

(** A table entry is a byte with the decimal point off. *)
Definition pattern_ok (p : Z) : bool :=
  Z.testbit p 7 && (0 <=? p) && (p <? 256).

(** The digit whose pattern a segment byte carries on bits 0-6. *)
Fixpoint find_pattern (tbl : list Z) (d : Z) (segments : Z) : option Z :=
  match tbl with
  | [] => None
  | p :: rest =>
      if Z.lor segments 0x80 =? p then Some d
      else find_pattern rest (d + 1) segments
  end.

Definition digit_char (d : Z) : ascii :=
  ascii_of_nat (48 + Z.to_nat d).

(** What a reader sees on one slot, then on the four of them. *)
Definition glyph (segments : Z) : option string :=
  d <- find_pattern digitPattern 0 segments ;;
  Some (String (digit_char d) (if point_lit segments then "."%string else EmptyString)).

Fixpoint render (bytes : list Z) : option string :=
  match bytes with
  | [] => Some EmptyString
  | b :: rest =>
      g <- glyph b ;;
      r <- render rest ;;
      Some (g ++ r)%string
  end.

(** The number that a row of decimal digits spells, leftmost first. *)
Definition value_of (ds : list Z) : Z :=
  fold_left (fun acc d => 10 * acc + d) ds 0.

(** *** The segments of a pattern

    Bits 0 to 6 of a segment byte drive the segments A to G (line 26:
    [0x3F] is A-F); a segment is lit when its bit is 0. *)
Inductive segment : Type := SegA | SegB | SegC | SegD | SegE | SegF | SegG.

Definition segment_bit (g : segment) : Z :=
  match g with
  | SegA => 0 | SegB => 1 | SegC => 2 | SegD => 3
  | SegE => 4 | SegF => 5 | SegG => 6
  end.

Definition lit_segments (segments : Z) : list segment :=
  filter (fun g => negb (Z.testbit segments (segment_bit g)))
    [SegA; SegB; SegC; SegD; SegE; SegF; SegG].

(** The segments that the comments of lines 28-37 give for each digit. *)
Definition documented_segments : list (list segment) :=
  [ [SegA; SegB; SegC; SegD; SegE; SegF];
    [SegB; SegC];
    [SegA; SegB; SegD; SegE; SegG];
    [SegA; SegB; SegC; SegD; SegG];
    [SegB; SegC; SegF; SegG];
    [SegA; SegC; SegD; SegF; SegG];
    [SegA; SegC; SegD; SegE; SegF; SegG];
    [SegA; SegB; SegC];
    [SegA; SegB; SegC; SegD; SegE; SegF; SegG];
    [SegA; SegB; SegC; SegD; SegF; SegG] ].

End Display.

(** ** Single-precision arithmetic

    [float] is IEEE 754 binary32, every operation rounded to nearest,
    ties to even: the operations are those of [SpecFloat] at precision
    24 and maximal exponent 128. *)
Module Float32.

Definition prec : Z := 24.
Definition emax : Z := 128.

Definition float : Type := spec_float.

(** Conversion of an [int] to [float]. *)
Definition of_int (z : Z) : float := binary_normalize prec emax z 0 false.

Definition mul (x y : float) : float := SFmul prec emax x y.
Definition div (x y : float) : float := SFdiv prec emax x y.

(** The literal [3.3f]: the binary32 number nearest to 33/10, which is
    13841203 * 2^-22. *)
Definition lit_3_3 : float := S754_finite false 13841203 (-22).

(** [static_cast<int>(x)]: the fraction is dropped; nothing is defined
    for a value that is not a number or does not fit an [int]. *)
Definition to_int (x : float) : option Z :=
  match x with
  | S754_zero _ => Some 0
  | S754_finite s m e =>
      let a := if 0 <=? e then Z.pos m * 2 ^ e
               else Z.quot (Z.pos m) (2 ^ (- e)) in
      let z := if s then - a else a in
      if (MachInt.int_min <=? z) && (z <=? MachInt.int_max)
      then Some z else None
  | S754_infinity _ | S754_nan => None
  end.

End Float32.

(** ** The polling loop (lines 124-149) *)
Module Main.
Import MachInt Clock ShiftReg Display.

(** Line 135: [potentiometer.read_u16() * 3.3f / 65535] *)
Definition voltage (raw : Z) : Float32.float :=
  Float32.div (Float32.mul (Float32.of_int raw) Float32.lit_3_3)
              (Float32.of_int 65535).

(** Line 138: [static_cast<int>(voltage * 1000)] *)
Definition displayVal (raw : Z) : option Z :=
  Float32.to_int (Float32.mul (voltage raw) (Float32.of_int 1000)).

(** What one pass of the loop reads: the levels of the two buttons and
    the raw sample of the potentiometer. *)
Record inputs : Type := mkInputs { s1 : Z; s3 : Z; potentiometer : Z }.

(** The counters and the outputs together. *)
Record world : Type := mkWorld { clock : time; board : hw }.

(** One pass of [while (true)]. *)
Definition main_pass (i : inputs) (w : world) : option world :=
  let w :=
    if s1 i =? 0
    then mkWorld (reset (clock w)) (sleep_for 200 (board w))
    else w in
  if s3 i =? 0 then
    v <- displayVal (potentiometer i) ;;
    h <- displayNumber v true 0 (board w) ;;
    Some (mkWorld (clock w) h)
  else
    h <- displayNumber (timeValue (clock w)) true 1 (board w) ;;
    Some (mkWorld (clock w) h).

(** Line 144 when the ticker callback runs between the two reads:
    [minutes] is read in one state of the counters and [seconds] in
    another. *)
Definition timeValue_torn (at_minutes at_seconds : time) : Z :=
  wrap_int (wrap_int (minutes at_minutes * 100) + seconds at_seconds).

(** The program after line 122: ticker callbacks and passes of the loop,
    in any order, a callback taken between two passes. *)
Inductive sys_op : Type :=
| Isr
| Pass (i : inputs).

Fixpoint sys_run (ops : list sys_op) (w : world) : option world :=
  match ops with
  | [] => Some w
  | Isr :: rest => sys_run rest (mkWorld (updateTime (clock w)) (board w))
  | Pass i :: rest => w' <- main_pass i w ;; sys_run rest w'
  end.

(** The state after lines 119-122. *)
Definition boot : world := mkWorld initial hw_init.

(** [read_u16] returns an [unsigned short]. *)
Definition is_sample (raw : Z) : Prop := 0 <= raw <= 65535.

Definition sys_op_ok (o : sys_op) : Prop :=
  match o with
  | Isr => True
  | Pass i => is_sample (potentiometer i)
  end.

(** *** The scaling of a sample, in integers

    [raw * 3300 / 65535] rounded down, less one at the four samples
    that are 1/5, 2/5, 3/5 and 4/5 of full scale. *)
Definition scaled (raw : Z) : Z :=
  raw * 3300 / 65535
  - (if (raw =? 13107) || (raw =? 26214) || (raw =? 39321) || (raw =? 52428)
     then 1 else 0).

(** [P] holds of the [n] integers from [z] on. *)
Fixpoint all_from (n : nat) (P : Z -> bool) (z : Z) : bool :=
  match n with
  | O => true
  | S k => P z && all_from k P (z + 1)
  end.

Definition scaled_ok (raw : Z) : bool :=
  match displayVal raw with
  | Some v => v =? scaled raw
  | None => false
  end.

(** *** A pass interrupted during its debounce sleep *)

(** Lines 126-129, the ticker callback running [k] times while the pass
    sleeps at line 128. *)
Definition debounce (i : inputs) (k : nat) (w : world) : world :=
  if s1 i =? 0
  then mkWorld (ticks k (reset (clock w))) (sleep_for 200 (board w))
  else w.

(** Lines 133-148. *)
Definition show (i : inputs) (w : world) : option world :=
  if s3 i =? 0 then
    v <- displayVal (potentiometer i) ;;
    h <- displayNumber v true 0 (board w) ;;
    Some (mkWorld (clock w) h)
  else
    h <- displayNumber (timeValue (clock w)) true 1 (board w) ;;
    Some (mkWorld (clock w) h).

(** One pass of the loop during which the ticker callback runs [k] times
    within the debounce sleep and at no other point. *)
Definition main_pass_ticked (i : inputs) (k : nat) (w : world)
  : option world :=
  show i (debounce i k w).

End Main.

(** * Properties *)

(** ** Machine integers *)
Module MachIntFacts.
Import MachInt.

Lemma wrap_int_id (z : Z) : in_int z -> wrap_int z = z.
Proof.
  unfold in_int, int_min, int_max, wrap_int; intros H.
  rewrite Z.mod_small; lia.
Qed.

Lemma to_uint8_range (z : Z) : is_uint8 (to_uint8 z).
Proof. unfold is_uint8, to_uint8. apply Z.mod_pos_bound. lia. Qed.

Lemma to_uint8_id (z : Z) : is_uint8 z -> to_uint8 z = z.
Proof. unfold is_uint8, to_uint8. intros H. apply Z.mod_small. exact H. Qed.

(** Bit [n] of a value, as the firmware extracts it. *)
Lemma shiftr_land_1 (v n : Z) :
  0 <= n -> Z.land (Z.shiftr v n) 1 = Z.b2z (Z.testbit v n).
Proof.
  intros Hn.
  change 1 with (Z.ones 1).
  rewrite Z.land_ones by lia.
  rewrite <- Z.bit0_mod, Z.shiftr_spec by lia.
  reflexivity.
Qed.

End MachIntFacts.

(** ** The time counter *)
Module ClockFacts.
Import MachInt MachIntFacts Clock.

(** Away from the roll-over a tick only bumps [seconds]. *)
Lemma updateTime_step (s m : Z) :
  0 <= s < 59 -> updateTime (mkTime s m) = mkTime (s + 1) m.
Proof.
  intros Hs. unfold updateTime; cbn [seconds minutes].
  rewrite wrap_int_id by (unfold in_int, int_min, int_max; lia).
  destruct (Z.leb_spec 60 (s + 1)) as [H | H]; [lia | reflexivity].
Qed.

(** At 59 seconds a tick clears [seconds] and bumps [minutes], which
    itself starts again from 0 instead of reaching 100. *)
Lemma updateTime_roll (m : Z) :
  int_min <= m < int_max ->
  updateTime (mkTime 59 m) = mkTime 0 (if m <? 99 then m + 1 else 0).
Proof.
  intros Hm. unfold updateTime; cbn [seconds minutes].
  rewrite (wrap_int_id (59 + 1)) by (unfold in_int, int_min, int_max; lia).
  change (60 <=? 59 + 1) with true; cbv iota.
  rewrite wrap_int_id by (unfold in_int in *; unfold int_min, int_max in *; lia).
  destruct (Z.leb_spec 100 (m + 1)), (Z.ltb_spec m 99); try lia; reflexivity.
Qed.

Lemma ticks_add (a b : nat) (t : time) :
  ticks (a + b) t = ticks b (ticks a t).
Proof.
  revert t. induction a as [| a IH]; intros t; cbn [ticks Nat.add].
  - reflexivity.
  - apply IH.
Qed.

(** [k] ticks that stay below the roll-over. *)
Lemma ticks_within (k : nat) : forall s m,
  0 <= s -> s + Z.of_nat k <= 59 ->
  ticks k (mkTime s m) = mkTime (s + Z.of_nat k) m.
Proof.
  induction k as [| k IH]; intros s m Hs Hk.
  - cbn [ticks]. f_equal. lia.
  - cbn [ticks]. rewrite updateTime_step by lia.
    rewrite IH by lia. f_equal. lia.
Qed.

(** A full minute of ticks, from any second of the minute. *)
Lemma ticks_60 (s m : Z) :
  0 <= s <= 59 -> int_min <= m < int_max ->
  ticks 60 (mkTime s m) = mkTime s (if m <? 99 then m + 1 else 0).
Proof.
  intros Hs Hm.
  replace 60%nat with ((Z.to_nat (59 - s) + 1) + Z.to_nat s)%nat by lia.
  rewrite !ticks_add.
  rewrite ticks_within by lia.
  replace (s + Z.of_nat (Z.to_nat (59 - s))) with 59 by lia.
  cbn [ticks]. rewrite updateTime_roll by exact Hm.
  rewrite ticks_within by lia.
  f_equal. lia.
Qed.

Lemma updateTime_in_range (t : time) : in_range t -> in_range (updateTime t).
Proof.
  destruct t as [s m]. unfold in_range; cbn [seconds minutes].
  intros [Hs Hm].
  destruct (Z.eq_dec s 59) as [-> | Hne].
  - rewrite updateTime_roll by (unfold int_min, int_max; lia).
    cbn [seconds minutes]. destruct (Z.ltb_spec m 99); lia.
  - rewrite updateTime_step by lia. cbn [seconds minutes]. lia.
Qed.

Lemma reset_in_range (t : time) : in_range (reset t).
Proof. unfold in_range, reset; cbn. lia. Qed.

Lemma run_in_range (ops : list op) : forall t,
  in_range t -> in_range (run ops t).
Proof.
  unfold run. induction ops as [| o ops IH]; intros t Ht; cbn [fold_left].
  - exact Ht.
  - apply IH. destruct o; cbn [apply_op].
    + apply updateTime_in_range, Ht.
    + apply reset_in_range.
Qed.

(** The range is kept even when a tick falls between the two stores of
    a reset. *)
Lemma micro_run_in_range (ops : list micro_op) : forall t,
  in_range t -> in_range (fold_left apply_micro ops t).
Proof.
  induction ops as [| o ops IH]; intros t Ht; cbn [fold_left].
  - exact Ht.
  - apply IH. destruct o; cbn [apply_micro].
    + apply updateTime_in_range, Ht.
    + destruct Ht as [Hs Hm]. split; cbn; lia.
    + destruct Ht as [Hs Hm]. split; cbn; lia.
Qed.

(** What a tick does to a state in range, case by case. *)
Lemma updateTime_cases (t : time) :
  in_range t ->
  updateTime t =
    if seconds t <? 59 then mkTime (seconds t + 1) (minutes t)
    else if minutes t <? 99 then mkTime 0 (minutes t + 1)
    else mkTime 0 0.
Proof.
  destruct t as [s m]. unfold in_range; cbn [seconds minutes].
  intros [Hs Hm].
  destruct (Z.ltb_spec s 59).
  - apply updateTime_step. lia.
  - replace s with 59 by lia.
    rewrite updateTime_roll by (unfold int_min, int_max; lia).
    destruct (Z.ltb_spec m 99); reflexivity.
Qed.

(** C1, as amended: from any second [s] of [0..59] and any value [m] of
    [minutes] below the largest [int], 60 calls of [updateTime] bring
    [seconds] back to [s]; [minutes] becomes [m + 1] when that is below
    100 and 0 otherwise, so 99 is followed by 0. *)
Theorem C1_sixty_ticks (s m : Z) :
  0 <= s <= 59 -> int_min <= m < int_max ->
  seconds (ticks 60 (mkTime s m)) = s /\
  minutes (ticks 60 (mkTime s m)) = (if m <? 99 then m + 1 else 0).
Proof.
  intros Hs Hm. rewrite ticks_60 by assumption. split; reflexivity.
Qed.

Lemma C1_sixty_ticks_witness :
  seconds (ticks 60 (mkTime 17 99)) = 17 /\
  minutes (ticks 60 (mkTime 17 99)) = 0.
Proof.
  apply (C1_sixty_ticks 17 99); unfold int_min, int_max; lia.
Defined.

(** C1 as stated fails: from 0 seconds and 99 minutes, 60 calls leave
    [minutes] at 0, which is not 99 + 1. *)
Lemma C1_minutes_99_counterexample :
  ticks 60 (mkTime 0 99) = mkTime 0 0 /\
  minutes (ticks 60 (mkTime 0 99)) <> 99 + 1.
Proof.
  split.
  - vm_compute. reflexivity.
  - vm_compute. discriminate.
Qed.

(** C2: every state reached from 0 seconds and 0 minutes by calls of
    [updateTime] and resets has [seconds] in [0..59] and [minutes] in
    [0..99]; a call of [updateTime] lowers [minutes] only from 99, when
    the incremented value reaches 100, and then to 0; from 59 minutes
    and 59 seconds it goes on to 60. *)
Theorem C2_counters_in_range (ops : list op) :
  let t := run ops initial in
  in_range t /\
  (minutes (updateTime t) < minutes t ->
     minutes t + 1 = 100 /\ minutes (updateTime t) = 0) /\
  (minutes (updateTime t) = 0 -> minutes t = 0 \/ minutes t + 1 = 100) /\
  (seconds t = 59 -> minutes t = 59 -> minutes (updateTime t) = 60).
Proof.
  intros t.
  assert (Ht : in_range t).
  { apply run_in_range. unfold in_range, initial; cbn. lia. }
  split; [exact Ht |].
  rewrite (updateTime_cases t Ht).
  destruct Ht as [Hs Hm].
  destruct (Z.ltb_spec (seconds t) 59), (Z.ltb_spec (minutes t) 99);
    cbn [seconds minutes]; repeat split; intros; lia.
Qed.

Lemma C2_counters_in_range_witness :
  let t := run [Tick; Tick; Reset; Tick] initial in
  in_range t /\
  (minutes (updateTime t) < minutes t ->
     minutes t + 1 = 100 /\ minutes (updateTime t) = 0) /\
  (minutes (updateTime t) = 0 -> minutes t = 0 \/ minutes t + 1 = 100) /\
  (seconds t = 59 -> minutes t = 59 -> minutes (updateTime t) = 60).
Proof.
  exact (C2_counters_in_range [Tick; Tick; Reset; Tick]).
Defined.

(** The wrap does happen: 5999 ticks after the start the counters show
    99 minutes 59 seconds, and the next tick clears both. *)
Lemma minutes_wrap_reached :
  run (repeat Tick (Z.to_nat 5999)) initial = mkTime 59 99 /\
  updateTime (mkTime 59 99) = mkTime 0 0.
Proof. split; vm_compute; reflexivity. Qed.

(** After one hour the minutes read 60: nothing wraps there. *)
Lemma minutes_pass_60 :
  run (repeat Tick (Z.to_nat 3600)) initial = mkTime 0 60.
Proof. vm_compute; reflexivity. Qed.

(** *** Further properties of the counter *)

Lemma of_elapsed_in_range (n : Z) : in_range (of_elapsed n).
Proof.
  unfold in_range, of_elapsed; cbn [seconds minutes].
  pose proof (Z.mod_pos_bound n 60 ltac:(lia)).
  pose proof (Z.mod_pos_bound (n / 60) 100 ltac:(lia)).
  lia.
Qed.

Lemma of_elapsed_elapsed (t : time) :
  in_range t -> of_elapsed (elapsed t) = t.
Proof.
  destruct t as [s m]. unfold in_range, of_elapsed, elapsed.
  cbn [seconds minutes]. intros [Hs Hm].
  f_equal; Z.div_mod_to_equations; lia.
Qed.

(** One tick is one more second on the reading. *)
Lemma updateTime_of_elapsed (n : Z) :
  updateTime (of_elapsed n) = of_elapsed (n + 1).
Proof.
  rewrite updateTime_cases by apply of_elapsed_in_range.
  unfold of_elapsed; cbn [seconds minutes].
  destruct (Z.ltb_spec (n mod 60) 59);
    [| destruct (Z.ltb_spec ((n / 60) mod 100) 99)];
    f_equal; Z.div_mod_to_equations; lia.
Qed.

Lemma ticks_of_elapsed (k : nat) : forall n,
  ticks k (of_elapsed n) = of_elapsed (n + Z.of_nat k).
Proof.
  induction k as [| k IH]; intros n; cbn [ticks].
  - f_equal. lia.
  - rewrite updateTime_of_elapsed, IH. f_equal. lia.
Qed.

(** X1: from counters in range, [k] calls of [updateTime] leave the
    reading of the seconds counted so far plus [k]: seconds modulo 60,
    whole minutes modulo 100. *)
Theorem X1_ticks_closed_form (k : nat) (t : time) :
  in_range t ->
  seconds (ticks k t) = (elapsed t + Z.of_nat k) mod 60 /\
  minutes (ticks k t) = ((elapsed t + Z.of_nat k) / 60) mod 100.
Proof.
  intros Ht.
  rewrite <- (of_elapsed_elapsed t Ht) at 1 3.
  rewrite ticks_of_elapsed. split; reflexivity.
Qed.

Lemma X1_ticks_closed_form_witness :
  seconds (ticks 200 (mkTime 30 98)) = (elapsed (mkTime 30 98) + 200) mod 60 /\
  minutes (ticks 200 (mkTime 30 98)) =
    ((elapsed (mkTime 30 98) + 200) / 60) mod 100.
Proof.
  apply (X1_ticks_closed_form 200 (mkTime 30 98)).
  unfold in_range; cbn; lia.
Defined.

(** X2: the counters come back to where they were after [k] calls of
    [updateTime] exactly when [k] is a multiple of 6000, that is of 100
    minutes. *)
Theorem X2_ticks_period (k : nat) (t : time) :
  in_range t ->
  (ticks k t = t <-> Z.of_nat k mod 6000 = 0).
Proof.
  intros Ht.
  rewrite <- (of_elapsed_elapsed t Ht) at 1 2.
  rewrite ticks_of_elapsed.
  assert (He : 0 <= elapsed t).
  { destruct Ht as [Hs Hm]. unfold elapsed. lia. }
  unfold of_elapsed. set (e := elapsed t) in *. set (n := Z.of_nat k).
  assert (Hn : 0 <= n) by (unfold n; lia).
  clearbody n e. clear Ht.
  split.
  - intros H. injection H as Hs Hm.
    Z.div_mod_to_equations. lia.
  - intros H. f_equal; Z.div_mod_to_equations; lia.
Qed.

Lemma X2_ticks_period_witness :
  ticks (Z.to_nat 6000) (mkTime 17 42) = mkTime 17 42 <->
  Z.of_nat (Z.to_nat 6000) mod 6000 = 0.
Proof.
  apply (X2_ticks_period (Z.to_nat 6000) (mkTime 17 42)).
  unfold in_range; cbn; lia.
Defined.

End ClockFacts.

(** ** The shift-register driver *)
Module ShiftRegFacts.
Import MachInt MachIntFacts ShiftReg.

Lemma log_set_pin (p : pin) (v : Z) (h : hw) :
  log (set_pin p v h) = log h ++ [Write p v].
Proof. destruct p; reflexivity. Qed.

Lemma log_sleep_for (ms : Z) (h : hw) :
  log (sleep_for ms h) = log h ++ [Sleep ms].
Proof. reflexivity. Qed.

(** One turn of the loop clocks out bit [i]. *)
Lemma log_shiftOut_body (value i : Z) (h : hw) :
  0 <= i ->
  log (shiftOut_body value i h) = log h ++ bit_events (Z.testbit value i).
Proof.
  intros Hi. unfold shiftOut_body, bit_events.
  rewrite !log_set_pin, shiftr_land_1 by exact Hi.
  rewrite <- !app_assoc. reflexivity.
Qed.

(** The loop started with [n] turns left clocks out bits [n-1], ..., 0
    in that order. *)
Lemma log_shiftOut_loop (n : nat) (value : Z) : forall h,
  log (shiftOut_loop n value h) =
  log h ++ flat_map (fun i => bit_events (Z.testbit value (Z.of_nat i)))
             (rev (seq 0 n)).
Proof.
  induction n as [| n IH]; intros h.
  - cbn. rewrite app_nil_r. reflexivity.
  - cbn [shiftOut_loop]. rewrite IH, log_shiftOut_body by lia.
    rewrite seq_S, rev_app_distr. cbn [rev app Nat.add flat_map].
    rewrite <- app_assoc. reflexivity.
Qed.

Lemma log_shiftOut (value : Z) (h : hw) :
  log (shiftOut value h) = log h ++ byte_events (to_uint8 value).
Proof. unfold shiftOut. rewrite log_shiftOut_loop. reflexivity. Qed.

(** The loop leaves the latch line alone and the clock line low. *)
Lemma pins_shiftOut_loop (n : nat) (value : Z) : forall h,
  latchPin (shiftOut_loop n value h) = latchPin h /\
  (n <> O -> clockPin (shiftOut_loop n value h) = 0).
Proof.
  induction n as [| n IH]; intros h.
  - split; [reflexivity | intros H; contradiction].
  - cbn [shiftOut_loop].
    destruct (IH (shiftOut_body value (Z.of_nat n) h)) as [Hl Hc].
    split.
    + rewrite Hl. reflexivity.
    + intros _. destruct n as [| n]; [reflexivity | apply Hc; discriminate].
Qed.

(** Each bit costs one clock pulse. *)
Lemma clock_pulses_bit (b : bool) (l : list event) :
  clock_pulses (bit_events b ++ l) = S (clock_pulses l).
Proof. reflexivity. Qed.

Lemma clock_pulses_byte (value : Z) (l : list event) :
  clock_pulses (byte_events value ++ l) = (8 + clock_pulses l)%nat.
Proof.
  unfold byte_events, msb_first. cbn [map flat_map].
  rewrite <- !app_assoc, !clock_pulses_bit, app_nil_l. reflexivity.
Qed.

Lemma latch_high_byte (value : Z) :
  filter is_latch_high (byte_events value) = [].
Proof. reflexivity. Qed.

(** A byte can be read back from the pin writes that clock it out. *)
Lemma byte_events_inj (a b : Z) :
  is_uint8 a -> is_uint8 b -> byte_events a = byte_events b -> a = b.
Proof.
  unfold is_uint8. intros Ha Hb H.
  unfold byte_events, msb_first in H.
  cbn [map flat_map bit_events app] in H.
  injection H as H7 H6 H5 H4 H3 H2 H1 H0.
  apply Z.b2z_inj in H7, H6, H5, H4, H3, H2, H1, H0.
  apply Z.bits_inj'. intros n Hn.
  destruct (Z.lt_ge_cases n 8) as [Hlt | Hge].
  - assert (Hc : n = 0 \/ n = 1 \/ n = 2 \/ n = 3 \/
                 n = 4 \/ n = 5 \/ n = 6 \/ n = 7) by lia.
    destruct Hc as [-> | [-> | [-> | [-> | [-> | [-> | [-> | ->]]]]]]];
      assumption.
  - rewrite <- (Z.mod_small a (2 ^ 8)), <- (Z.mod_small b (2 ^ 8)) by lia.
    rewrite !Z.mod_pow2_bits_high by lia. reflexivity.
Qed.

(** Everything [writeToShiftRegister] does. *)
Lemma log_writeToShiftRegister (segments digit : Z) (h : hw) :
  log (writeToShiftRegister segments digit h) =
  log h ++ [Write LatchPin 0] ++ byte_events (to_uint8 segments)
    ++ byte_events (to_uint8 digit) ++ [Write LatchPin 1].
Proof.
  unfold writeToShiftRegister.
  rewrite !log_set_pin, !log_shiftOut, !log_set_pin.
  rewrite <- !app_assoc. reflexivity.
Qed.

(** C6: for every byte, [shiftOut] goes through the bit positions 7
    down to 0, each time putting that bit of the byte on the data line
    and then driving the clock line high and low: bit 7 leaves first and
    the clock is pulsed exactly 8 times. *)
Theorem C6_shiftOut_msb_first (value : Z) (h : hw) :
  is_uint8 value ->
  log (shiftOut value h) =
    log h ++ flat_map
               (fun i => [Write DataPin (Z.b2z (Z.testbit value i));
                          Write ClockPin 1; Write ClockPin 0])
               [7; 6; 5; 4; 3; 2; 1; 0] /\
  clock_pulses (byte_events value) = 8%nat /\
  List.length (byte_events value) = 24%nat.
Proof.
  intros Hv. rewrite log_shiftOut, to_uint8_id by exact Hv.
  split; [reflexivity |].
  split; [| reflexivity].
  rewrite <- (app_nil_r (byte_events value)), clock_pulses_byte.
  reflexivity.
Qed.

Lemma C6_shiftOut_msb_first_witness :
  log (shiftOut 0xA5 hw_init) =
    [Write DataPin 1; Write ClockPin 1; Write ClockPin 0;
     Write DataPin 0; Write ClockPin 1; Write ClockPin 0;
     Write DataPin 1; Write ClockPin 1; Write ClockPin 0;
     Write DataPin 0; Write ClockPin 1; Write ClockPin 0;
     Write DataPin 0; Write ClockPin 1; Write ClockPin 0;
     Write DataPin 1; Write ClockPin 1; Write ClockPin 0;
     Write DataPin 0; Write ClockPin 1; Write ClockPin 0;
     Write DataPin 1; Write ClockPin 1; Write ClockPin 0] /\
  clock_pulses (byte_events 0xA5) = 8%nat /\
  List.length (byte_events 0xA5) = 24%nat.
Proof.
  apply (C6_shiftOut_msb_first 0xA5 hw_init). unfold is_uint8. lia.
Defined.

(** C7: for every pair of bytes, [writeToShiftRegister] drives the latch
    line low, clocks out [segments] and then [digit], and drives the
    latch line high last; the 16 clock pulses all come before the one
    and only rising level on the latch line. *)
Theorem C7_writeToShiftRegister_order (segments digit : Z) (h : hw) :
  is_uint8 segments -> is_uint8 digit ->
  let out :=
    [Write LatchPin 0] ++ byte_events segments ++ byte_events digit
      ++ [Write LatchPin 1] in
  log (writeToShiftRegister segments digit h) = log h ++ out /\
  latchPin (writeToShiftRegister segments digit h) = 1 /\
  latch_pulses out = 1%nat /\
  clock_pulses (removelast out) = 16%nat /\
  last out (Sleep 0) = Write LatchPin 1.
Proof.
  intros Hs Hd out.
  rewrite log_writeToShiftRegister, !to_uint8_id by assumption.
  split; [reflexivity |].
  split; [reflexivity |].
  split; [reflexivity |].
  split; [| reflexivity].
  change (removelast out)
    with ([Write LatchPin 0] ++ byte_events segments ++ byte_events digit).
  cbn [app clock_pulses].
  rewrite clock_pulses_byte.
  rewrite <- (app_nil_r (byte_events digit)), clock_pulses_byte.
  reflexivity.
Qed.

Lemma C7_writeToShiftRegister_order_witness :
  let out :=
    [Write LatchPin 0] ++ byte_events 0x19 ++ byte_events 0x02
      ++ [Write LatchPin 1] in
  log (writeToShiftRegister 0x19 0x02 hw_init) = log hw_init ++ out /\
  latchPin (writeToShiftRegister 0x19 0x02 hw_init) = 1 /\
  latch_pulses out = 1%nat /\
  clock_pulses (removelast out) = 16%nat /\
  last out (Sleep 0) = Write LatchPin 1.
Proof.
  apply (C7_writeToShiftRegister_order 0x19 0x02 hw_init);
    unfold is_uint8; lia.
Defined.

(** *** What the register receives *)

(** A byte is the sum of its eight bits. *)
Lemma byte_bits (v : Z) :
  is_uint8 v ->
  v = 128 * Z.b2z (Z.testbit v 7) + 64 * Z.b2z (Z.testbit v 6)
      + 32 * Z.b2z (Z.testbit v 5) + 16 * Z.b2z (Z.testbit v 4)
      + 8 * Z.b2z (Z.testbit v 3) + 4 * Z.b2z (Z.testbit v 2)
      + 2 * Z.b2z (Z.testbit v 1) + Z.b2z (Z.testbit v 0).
Proof.
  unfold is_uint8. intros Hv.
  rewrite !Z.testbit_spec' by lia.
  change (2 ^ 7) with 128. change (2 ^ 6) with 64. change (2 ^ 5) with 32.
  change (2 ^ 4) with 16. change (2 ^ 3) with 8. change (2 ^ 2) with 4.
  change (2 ^ 1) with 2. change (2 ^ 0) with 1.
  Z.div_mod_to_equations. lia.
Qed.

Lemma received_app (a b : list event) (r : receiver) :
  received (a ++ b) r = received b (received a r).
Proof. apply fold_left_app. Qed.

(** With the clock line low, the three writes of one bit shift that bit
    in and leave the clock line low. *)
Lemma received_bit (b : bool) (r : receiver) :
  rx_clock r = 0 ->
  received (bit_events b) r =
  mkReceiver (rx_latch r) 0 (Z.b2z b)
    ((2 * rx_shift r + Z.b2z b) mod 2 ^ 16) (rx_out r).
Proof.
  destruct r as [l c d sh o]. cbn [rx_clock]. intros ->.
  destruct b; reflexivity.
Qed.

Lemma shift_in_mod (x b : Z) :
  (2 * (x mod 2 ^ 16) + b) mod 2 ^ 16 = (2 * x + b) mod 2 ^ 16.
Proof.
  rewrite <- Z.add_mod_idemp_l, Z.mul_mod_idemp_r, Z.add_mod_idemp_l by lia.
  reflexivity.
Qed.

(** A byte clocked out pushes the bits of the register up by eight and
    takes their place. *)
Lemma received_byte (v : Z) (r : receiver) :
  is_uint8 v -> rx_clock r = 0 ->
  received (byte_events v) r =
  mkReceiver (rx_latch r) 0 (Z.b2z (Z.testbit v 0))
    ((256 * rx_shift r + v) mod 2 ^ 16) (rx_out r).
Proof.
  intros Hv Hc. unfold byte_events, msb_first. cbn [map flat_map].
  rewrite app_nil_r.
  repeat (rewrite received_app, received_bit by (exact Hc || reflexivity);
          cbn [rx_latch rx_clock rx_shift rx_out]).
  rewrite received_bit by reflexivity.
  cbn [rx_latch rx_clock rx_shift rx_out].
  rewrite !shift_in_mod.
  pose proof (byte_bits v Hv) as Hb.
  set (b7 := Z.b2z (Z.testbit v 7)) in *.
  set (b6 := Z.b2z (Z.testbit v 6)) in *.
  set (b5 := Z.b2z (Z.testbit v 5)) in *.
  set (b4 := Z.b2z (Z.testbit v 4)) in *.
  set (b3 := Z.b2z (Z.testbit v 3)) in *.
  set (b2 := Z.b2z (Z.testbit v 2)) in *.
  set (b1 := Z.b2z (Z.testbit v 1)) in *.
  set (b0 := Z.b2z (Z.testbit v 0)) in *.
  clearbody b7 b6 b5 b4 b3 b2 b1 b0.
  f_equal. change (2 ^ 16) with 65536.
  Z.div_mod_to_equations. lia.
Qed.

Lemma received_latch_low (r : receiver) :
  received [Write LatchPin 0] r =
  mkReceiver 0 (rx_clock r) (rx_data r) (rx_shift r) (rx_out r).
Proof.
  unfold received; cbn [fold_left receive].
  change (level 0 =? 1) with false. rewrite andb_false_r. reflexivity.
Qed.

(** X3: whatever the register held, once [writeToShiftRegister] is done
    its 16 outputs carry [segments] in the high byte and [digit] in the
    low byte: the byte sent first ends up furthest along, and the
    outputs change once, on the final rise of the latch line. *)
Theorem X3_register_receives (segments digit : Z) (h : hw) (r : receiver) :
  is_uint8 segments -> is_uint8 digit -> rx_clock r = 0 ->
  exists evs,
    log (writeToShiftRegister segments digit h) = log h ++ evs /\
    rx_out (received evs r) = 256 * segments + digit /\
    rx_out (received (removelast evs) r) = rx_out r.
Proof.
  intros Hs Hd Hc.
  exists ([Write LatchPin 0] ++ byte_events segments ++ byte_events digit
            ++ [Write LatchPin 1]).
  split.
  { rewrite log_writeToShiftRegister, !to_uint8_id by assumption.
    reflexivity. }
  assert (Hbytes : received ([Write LatchPin 0] ++ byte_events segments
                               ++ byte_events digit) r =
                   mkReceiver 0 0 (Z.b2z (Z.testbit digit 0))
                     (256 * segments + digit) (rx_out r)).
  { rewrite !received_app, received_latch_low.
    rewrite (received_byte segments) by (assumption || exact Hc).
    rewrite (received_byte digit) by (assumption || reflexivity).
    cbn [rx_latch rx_clock rx_data rx_shift rx_out].
    f_equal.
    unfold is_uint8 in Hs, Hd.
    change (2 ^ 16) with 65536.
    Z.div_mod_to_equations. lia. }
  split.
  - replace ([Write LatchPin 0] ++ byte_events segments ++ byte_events digit
               ++ [Write LatchPin 1])
      with (([Write LatchPin 0] ++ byte_events segments ++ byte_events digit)
              ++ [Write LatchPin 1])
      by (rewrite <- !app_assoc; reflexivity).
    rewrite received_app, Hbytes. reflexivity.
  - change (removelast ([Write LatchPin 0] ++ byte_events segments
                          ++ byte_events digit ++ [Write LatchPin 1]))
      with ([Write LatchPin 0] ++ byte_events segments ++ byte_events digit).
    rewrite Hbytes. reflexivity.
Qed.

Lemma X3_register_receives_witness :
  exists evs,
    log (writeToShiftRegister 0x19 0x02 hw_init) = log hw_init ++ evs /\
    rx_out (received evs (mkReceiver 1 0 1 0xBEEF 0x1234)) = 256 * 0x19 + 0x02 /\
    rx_out (received (removelast evs) (mkReceiver 1 0 1 0xBEEF 0x1234)) =
      rx_out (mkReceiver 1 0 1 0xBEEF 0x1234).
Proof.
  apply (X3_register_receives 0x19 0x02 hw_init
           (mkReceiver 1 0 1 0xBEEF 0x1234));
    [unfold is_uint8; lia | unfold is_uint8; lia | reflexivity].
Defined.

End ShiftRegFacts.

(** ** The digit multiplexer *)
Module DisplayFacts.
Import MachInt MachIntFacts ShiftReg ShiftRegFacts Display.

(** *** The pattern table *)

Lemma digitPattern_ok : forallb pattern_ok digitPattern = true.
Proof. vm_compute. reflexivity. Qed.

Lemma digitPattern_length : List.length digitPattern = 10%nat.
Proof. reflexivity. Qed.

Lemma index_Some_In (tbl : list Z) (i v : Z) :
  index tbl i = Some v -> In v tbl.
Proof.
  unfold index. destruct (i <? 0); [discriminate |].
  apply nth_error_In.
Qed.

Lemma index_in_bounds (tbl : list Z) (i : Z) :
  0 <= i < Z.of_nat (List.length tbl) -> exists v, index tbl i = Some v.
Proof.
  intros Hi. unfold index.
  destruct (Z.ltb_spec i 0) as [H | _]; [lia |].
  destruct (nth_error tbl (Z.to_nat i)) as [v |] eqn:E.
  - exists v. reflexivity.
  - apply nth_error_None in E. lia.
Qed.

Lemma index_digitPattern (d p : Z) :
  index digitPattern d = Some p -> Z.testbit p 7 = true /\ is_uint8 p.
Proof.
  intros H. apply index_Some_In in H.
  pose proof (proj1 (forallb_forall pattern_ok digitPattern)
                digitPattern_ok p H) as Hok.
  unfold pattern_ok in Hok.
  apply andb_prop in Hok as [Hok Hhi]. apply andb_prop in Hok as [Hb Hlo].
  unfold is_uint8. split; [exact Hb | lia].
Qed.

(** *** The decimal-point bit *)

(** [segments &= ~0x80] clears bit 7 and nothing else. *)
Lemma clear_point_bit7 (p : Z) :
  Z.testbit (to_uint8 (Z.land p (Z.lnot 0x80))) 7 = false.
Proof.
  unfold to_uint8. change 256 with (2 ^ 8).
  rewrite Z.mod_pow2_bits_low by lia.
  rewrite Z.land_spec, Z.lnot_spec by lia.
  change (Z.testbit 0x80 7) with true. apply andb_false_r.
Qed.

Lemma clear_point_low_bits (p j : Z) :
  0 <= j < 7 ->
  Z.testbit (to_uint8 (Z.land p (Z.lnot 0x80))) j = Z.testbit p j.
Proof.
  intros Hj. unfold to_uint8. change 256 with (2 ^ 8).
  rewrite Z.mod_pow2_bits_low by lia.
  rewrite Z.land_spec, Z.lnot_spec by lia.
  change 0x80 with (2 ^ 7). rewrite Z.pow2_bits_false by lia.
  apply andb_true_r.
Qed.

(** *** One slot *)

Lemma segments_at_inv (ds : list Z) (sd : bool) (dp i seg : Z) :
  segments_at ds sd dp i = Some seg ->
  exists d p,
    index ds i = Some d /\ index digitPattern d = Some p /\
    seg = if sd && (i =? dp)
          then to_uint8 (Z.land p (Z.lnot 0x80)) else p.
Proof.
  unfold segments_at. intros H.
  destruct (index ds i) as [d |] eqn:Ed; [| discriminate].
  destruct (index digitPattern d) as [p |] eqn:Ep; [| discriminate].
  exists d, p. injection H as <-. repeat split. exact Ep.
Qed.

Lemma segments_at_uint8 (ds : list Z) (sd : bool) (dp i seg : Z) :
  segments_at ds sd dp i = Some seg -> is_uint8 seg.
Proof.
  intros H. apply segments_at_inv in H as (d & p & _ & Hp & ->).
  destruct (sd && (i =? dp)).
  - apply to_uint8_range.
  - apply (index_digitPattern d p Hp).
Qed.

(** The point of a slot is lit exactly when the call asked for it on
    that slot. *)
Lemma segments_at_point (ds : list Z) (sd : bool) (dp i seg : Z) :
  segments_at ds sd dp i = Some seg ->
  point_lit seg = sd && (i =? dp).
Proof.
  intros H. apply segments_at_inv in H as (d & p & _ & Hp & ->).
  unfold point_lit. destruct (sd && (i =? dp)).
  - rewrite clear_point_bit7. reflexivity.
  - rewrite (proj1 (index_digitPattern d p Hp)). reflexivity.
Qed.

(** *** The digits *)

Lemma digits_range (number : Z) :
  0 <= number -> Forall (fun d => 0 <= d <= 9) (digits number).
Proof.
  intros Hn. unfold digits.
  assert (H : forall a, 0 <= a -> 0 <= Z.rem a 10 <= 9).
  { intros a Ha. pose proof (Z.rem_bound_pos a 10 Ha). lia. }
  repeat constructor; apply H; try apply Z.quot_pos; lia.
Qed.

(** Only the four low decimal digits of a number are kept. *)
Lemma digits_low4 (number : Z) :
  0 <= number -> digits number = digits (number mod 10000).
Proof.
  intros Hn.
  pose proof (Z.mod_pos_bound number 10000 ltac:(lia)) as Hr.
  pose proof (Z.div_pos number 10000 Hn ltac:(lia)) as Hq.
  rewrite (Z.div_mod number 10000) at 1 by lia.
  set (r := number mod 10000) in *. set (q := number / 10000) in *.
  assert (E : forall c k, 0 < c -> 10000 = k * 10 * c -> 0 <= k ->
             Z.rem (Z.quot (10000 * q + r) c) 10 = Z.rem (Z.quot r c) 10).
  { intros c k Hc Hk Hk0.
    rewrite !Z.quot_div_nonneg by lia.
    replace (10000 * q + r) with (r + q * k * 10 * c) by (rewrite Hk; ring).
    rewrite Z.div_add by lia.
    assert (0 <= r / c) by (apply Z.div_pos; lia).
    assert (0 <= q * k) by (apply Z.mul_nonneg_nonneg; lia).
    rewrite !Z.rem_mod_nonneg by lia.
    apply Z.mod_add. lia. }
  unfold digits.
  rewrite (E 1000 1), (E 100 10), (E 10 100) by lia.
  f_equal. f_equal. f_equal. f_equal.
  rewrite !Z.rem_mod_nonneg by lia.
  replace (10000 * q + r) with (r + q * 1000 * 10) by lia.
  apply Z.mod_add. lia.
Qed.

(** *** A whole call *)

Lemma log_displayNumber_body (ds : list Z) (sd : bool) (dp i : Z) (h h' : hw) :
  displayNumber_body ds sd dp i h = Some h' ->
  exists seg pos,
    segments_at ds sd dp i = Some seg /\ index digitPos i = Some pos /\
    log h' = log h ++ frame_events seg pos.
Proof.
  unfold displayNumber_body. intros H.
  destruct (segments_at ds sd dp i) as [seg |] eqn:Es; [| discriminate].
  destruct (index digitPos i) as [pos |] eqn:Ep; [| discriminate].
  injection H as <-. exists seg, pos. repeat split.
  rewrite log_sleep_for, log_writeToShiftRegister.
  rewrite (to_uint8_id seg) by (eapply segments_at_uint8; exact Es).
  rewrite (to_uint8_id pos).
  - unfold frame_events. rewrite <- !app_assoc. reflexivity.
  - apply index_Some_In in Ep. unfold is_uint8.
    cbn in Ep. intuition lia.
Qed.

(** A call that returns has driven the four slots in turn, left to
    right, each with its own segment byte. *)
Lemma displayNumber_inv (number : Z) (sd : bool) (dp : Z) (h h' : hw) :
  displayNumber number sd dp h = Some h' ->
  exists s0 s1 s2 s3,
    segments_at (digits number) sd dp 0 = Some s0 /\
    segments_at (digits number) sd dp 1 = Some s1 /\
    segments_at (digits number) sd dp 2 = Some s2 /\
    segments_at (digits number) sd dp 3 = Some s3 /\
    log h' = log h ++ frame_events s0 0x01 ++ frame_events s1 0x02
               ++ frame_events s2 0x04 ++ frame_events s3 0x08.
Proof.
  unfold displayNumber. cbn [displayNumber_loop]. intros H.
  destruct (displayNumber_body _ sd dp 0 h) as [h0 |] eqn:E0; [| discriminate].
  destruct (displayNumber_body _ sd dp (0 + 1) h0) as [h1 |] eqn:E1;
    [| discriminate].
  destruct (displayNumber_body _ sd dp (0 + 1 + 1) h1) as [h2 |] eqn:E2;
    [| discriminate].
  destruct (displayNumber_body _ sd dp (0 + 1 + 1 + 1) h2) as [h3 |] eqn:E3;
    [| discriminate].
  injection H as <-.
  apply log_displayNumber_body in E0 as (s0 & p0 & Hs0 & Hp0 & L0).
  apply log_displayNumber_body in E1 as (s1 & p1 & Hs1 & Hp1 & L1).
  apply log_displayNumber_body in E2 as (s2 & p2 & Hs2 & Hp2 & L2).
  apply log_displayNumber_body in E3 as (s3 & p3 & Hs3 & Hp3 & L3).
  cbn in Hp0, Hp1, Hp2, Hp3.
  injection Hp0 as <-. injection Hp1 as <-.
  injection Hp2 as <-. injection Hp3 as <-.
  exists s0, s1, s2, s3. repeat split; try assumption.
  rewrite L3, L2, L1, L0, <- !app_assoc. reflexivity.
Qed.

(** For a number that is not negative every table read is in bounds, so
    the call returns. *)
Lemma displayNumber_returns (number : Z) (sd : bool) (dp : Z) (h : hw) :
  0 <= number -> exists h', displayNumber number sd dp h = Some h'.
Proof.
  intros Hn.
  assert (Hseg : forall i d, index (digits number) i = Some d ->
            exists seg, segments_at (digits number) sd dp i = Some seg).
  { intros i d Hd. unfold segments_at. rewrite Hd.
    pose proof (digits_range number Hn) as HF.
    rewrite Forall_forall in HF.
    specialize (HF d (index_Some_In _ _ _ Hd)).
    destruct (index_in_bounds digitPattern d) as [p Hp].
    { rewrite digitPattern_length. lia. }
    rewrite Hp. eexists. reflexivity. }
  unfold displayNumber. cbn [displayNumber_loop]. unfold displayNumber_body.
  change (0 + 1 + 1 + 1) with 3. change (0 + 1 + 1) with 2.
  change (0 + 1) with 1.
  destruct (Hseg 0 _ eq_refl) as [s0 ->].
  destruct (Hseg 1 _ eq_refl) as [s1 ->].
  destruct (Hseg 2 _ eq_refl) as [s2 ->].
  destruct (Hseg 3 _ eq_refl) as [s3 ->].
  cbn. eexists. reflexivity.
Qed.

(** *** The pins and the wires during a call *)

Lemma pins_shiftOut (value : Z) (h : hw) :
  latchPin (shiftOut value h) = latchPin h /\
  clockPin (shiftOut value h) = 0 /\
  dataPin (shiftOut value h) = Z.b2z (Z.testbit (to_uint8 value) 0).
Proof.
  unfold shiftOut. split; [| split].
  - apply (proj1 (pins_shiftOut_loop 8 _ h)).
  - apply (proj2 (pins_shiftOut_loop 8 _ h)). discriminate.
  - cbn [shiftOut_loop]. unfold shiftOut_body at 1.
    cbn [set_pin dataPin]. apply shiftr_land_1. cbn. lia.
Qed.

Lemma pins_writeToShiftRegister (segments digit : Z) (h : hw) :
  latchPin (writeToShiftRegister segments digit h) = 1 /\
  clockPin (writeToShiftRegister segments digit h) = 0 /\
  dataPin (writeToShiftRegister segments digit h) =
    Z.b2z (Z.testbit (to_uint8 digit) 0).
Proof.
  unfold writeToShiftRegister.
  destruct (pins_shiftOut digit (shiftOut segments (set_pin LatchPin 0 h)))
    as (_ & Hc & Hd).
  destruct (shiftOut digit _) as [l c d lg].
  cbn [set_pin latchPin clockPin dataPin] in *.
  split; [reflexivity |]. split; [exact Hc | exact Hd].
Qed.

Lemma pins_sleep_for (ms : Z) (h : hw) :
  latchPin (sleep_for ms h) = latchPin h /\
  clockPin (sleep_for ms h) = clockPin h /\
  dataPin (sleep_for ms h) = dataPin h.
Proof. repeat split. Qed.

Lemma pins_displayNumber_body (ds : list Z) (sd : bool) (dp i : Z) (h h' : hw) :
  displayNumber_body ds sd dp i h = Some h' ->
  latchPin h' = 1 /\ clockPin h' = 0 /\
  exists pos, index digitPos i = Some pos /\
              dataPin h' = Z.b2z (Z.testbit (to_uint8 pos) 0).
Proof.
  unfold displayNumber_body. intros H.
  destruct (segments_at ds sd dp i) as [seg |]; [| discriminate].
  destruct (index digitPos i) as [pos |]; [| discriminate].
  injection H as <-.
  destruct (pins_writeToShiftRegister seg pos h) as (Hl & Hc & Hd).
  destruct (pins_sleep_for 2 (writeToShiftRegister seg pos h))
    as (-> & -> & ->).
  split; [exact Hl |]. split; [exact Hc |].
  exists pos. split; [reflexivity | exact Hd].
Qed.

(** What one frame adds to the tallies, whatever follows it. *)
Lemma clock_pulses_frame (s p : Z) (rest : list event) :
  clock_pulses (frame_events s p ++ rest) = (16 + clock_pulses rest)%nat.
Proof.
  unfold frame_events. rewrite <- !app_assoc.
  cbn [app clock_pulses].
  rewrite !clock_pulses_byte. reflexivity.
Qed.

Lemma latch_pulses_frame (s p : Z) (rest : list event) :
  latch_pulses (frame_events s p ++ rest) = S (latch_pulses rest).
Proof.
  unfold latch_pulses, frame_events.
  rewrite !filter_app, !latch_high_byte. reflexivity.
Qed.

Lemma total_sleep_byte (v : Z) (rest : list event) :
  total_sleep (byte_events v ++ rest) = total_sleep rest.
Proof. reflexivity. Qed.

Lemma total_sleep_frame (s p : Z) (rest : list event) :
  total_sleep (frame_events s p ++ rest) = 2 + total_sleep rest.
Proof.
  unfold frame_events. rewrite <- !app_assoc.
  cbn [app total_sleep]. rewrite !total_sleep_byte. reflexivity.
Qed.

Lemma bus_ok_byte (v : Z) (rest : list event) :
  bus_ok 0 0 (byte_events v ++ rest) = bus_ok 0 0 rest.
Proof. reflexivity. Qed.

Lemma bus_ok_frame (latch : Z) (s p : Z) (rest : list event) :
  bus_ok latch 0 (frame_events s p ++ rest) = bus_ok 1 0 rest.
Proof.
  unfold frame_events. rewrite <- !app_assoc.
  cbn [app bus_ok]. rewrite !bus_ok_byte. reflexivity.
Qed.

Lemma frame_events_length (s p : Z) :
  List.length (frame_events s p) = 51%nat.
Proof. reflexivity. Qed.

(** *** The properties of the specification *)

(** C4: [displayNumber(1234)] splits its argument into the digits 1, 2,
    3, 4 and [displayNumber(12345)] into 2, 3, 4, 5, which are the
    digits of 2345; the patterns of these digits are what goes out,
    slot 0 first, and a number that is not negative shows as its four
    low decimal digits do. *)
Theorem C4_digit_sequence :
  digits 1234 = [1; 2; 3; 4] /\
  digits 12345 = [2; 3; 4; 5] /\
  digits 12345 = digits 2345 /\
  map (index digitPattern) [1; 2; 3; 4; 5] =
    [Some 0xF9; Some 0xA4; Some 0xB0; Some 0x99; Some 0x92] /\
  option_map log (displayNumber 1234 false 1 hw_init) =
    Some (frame_events 0xF9 0x01 ++ frame_events 0xA4 0x02
            ++ frame_events 0xB0 0x04 ++ frame_events 0x99 0x08) /\
  option_map log (displayNumber 12345 false 1 hw_init) =
    Some (frame_events 0xA4 0x01 ++ frame_events 0xB0 0x02
            ++ frame_events 0x99 0x04 ++ frame_events 0x92 0x08) /\
  (forall number, 0 <= number ->
     digits number = digits (number mod 10000)).
Proof.
  repeat split; try (vm_compute; reflexivity).
  apply digits_low4.
Qed.

Lemma C4_digit_sequence_witness :
  digits 12345 = digits (12345 mod 10000).
Proof.
  apply (proj2 (proj2 (proj2 (proj2 (proj2 (proj2 C4_digit_sequence)))))).
  lia.
Defined.

(** C5, as amended: for every number [x] that is not negative,
    [displayNumber(x, true, 1)] returns after driving the four slots in
    turn; the segment byte of slot 1 has bit 7 clear and those of slots
    0, 2 and 3 have bit 7 set. *)
Theorem C5_point_on_slot_1_only (x : Z) (h : hw) :
  0 <= x ->
  exists s0 s1 s2 s3 h',
    displayNumber x true 1 h = Some h' /\
    log h' = log h ++ frame_events s0 0x01 ++ frame_events s1 0x02
               ++ frame_events s2 0x04 ++ frame_events s3 0x08 /\
    Z.testbit s1 7 = false /\
    Z.testbit s0 7 = true /\ Z.testbit s2 7 = true /\ Z.testbit s3 7 = true.
Proof.
  intros Hx.
  destruct (displayNumber_returns x true 1 h Hx) as [h' Hh'].
  destruct (displayNumber_inv x true 1 h h' Hh')
    as (s0 & s1 & s2 & s3 & H0 & H1 & H2 & H3 & L).
  exists s0, s1, s2, s3, h'.
  apply segments_at_point in H0, H1, H2, H3.
  unfold point_lit in H0, H1, H2, H3.
  change (true && (0 =? 1)) with false in H0.
  change (true && (1 =? 1)) with true in H1.
  change (true && (2 =? 1)) with false in H2.
  change (true && (3 =? 1)) with false in H3.
  apply negb_false_iff in H0, H2, H3. apply negb_true_iff in H1.
  repeat split; assumption.
Qed.

Lemma C5_point_on_slot_1_only_witness :
  exists s0 s1 s2 s3 h',
    displayNumber 2750 true 1 hw_init = Some h' /\
    log h' = log hw_init ++ frame_events s0 0x01 ++ frame_events s1 0x02
               ++ frame_events s2 0x04 ++ frame_events s3 0x08 /\
    Z.testbit s1 7 = false /\
    Z.testbit s0 7 = true /\ Z.testbit s2 7 = true /\ Z.testbit s3 7 = true.
Proof.
  apply (C5_point_on_slot_1_only 2750 hw_init). lia.
Defined.

(** C5 as stated fails: for the number -1 the units digit is -1, the
    read of [digitPattern] falls outside the table, and no segment byte
    is defined for slot 3. *)
Lemma C5_negative_counterexample :
  digits (-1) = [0; 0; 0; -1] /\
  index digitPattern (-1) = None /\
  segments_at (digits (-1)) true 1 3 = None /\
  displayNumber (-1) true 1 hw_init = None.
Proof. repeat split; vm_compute; reflexivity. Qed.

(** C9: for every number that is not negative, each of the four digits
    taken by [displayNumber] lies in [0..9], so each read of the
    10-entry table [digitPattern] is in bounds. *)
Theorem C9_digit_indices_in_bounds (number : Z) :
  0 <= number ->
  digits number =
    [ Z.rem (Z.quot number 1000) 10; Z.rem (Z.quot number 100) 10;
      Z.rem (Z.quot number 10) 10; Z.rem number 10 ] /\
  Forall (fun d => 0 <= d <= 9 /\ 0 <= d < Z.of_nat (List.length digitPattern)
                   /\ exists p, index digitPattern d = Some p)
         (digits number).
Proof.
  intros Hn. split; [reflexivity |].
  eapply Forall_impl; [| apply digits_range; exact Hn].
  cbn beta. intros d Hd.
  split; [exact Hd |].
  rewrite digitPattern_length.
  split; [lia |].
  apply index_in_bounds. rewrite digitPattern_length. lia.
Qed.

Lemma C9_digit_indices_in_bounds_witness :
  digits 9959 =
    [ Z.rem (Z.quot 9959 1000) 10; Z.rem (Z.quot 9959 100) 10;
      Z.rem (Z.quot 9959 10) 10; Z.rem 9959 10 ] /\
  Forall (fun d => 0 <= d <= 9 /\ 0 <= d < Z.of_nat (List.length digitPattern)
                   /\ exists p, index digitPattern d = Some p)
         (digits 9959).
Proof.
  apply (C9_digit_indices_in_bounds 9959). lia.
Defined.

(** C10, as amended: each of the 10 entries of [digitPattern] has bit 7
    set, so in any call of [displayNumber] with a number that is not
    negative, the decimal point of a slot is lit exactly when the call
    asked for a point and that slot is [decimalPos]: no digit lights it
    by its pattern. *)
Theorem C10_point_only_where_cleared
  (number : Z) (showDecimal : bool) (decimalPos : Z) (h : hw) :
  0 <= number ->
  List.length digitPattern = 10%nat /\
  Forall (fun p => Z.testbit p 7 = true) digitPattern /\
  exists h' s0 s1 s2 s3,
    displayNumber number showDecimal decimalPos h = Some h' /\
    log h' = log h ++ frame_events s0 0x01 ++ frame_events s1 0x02
               ++ frame_events s2 0x04 ++ frame_events s3 0x08 /\
    point_lit s0 = showDecimal && (0 =? decimalPos) /\
    point_lit s1 = showDecimal && (1 =? decimalPos) /\
    point_lit s2 = showDecimal && (2 =? decimalPos) /\
    point_lit s3 = showDecimal && (3 =? decimalPos).
Proof.
  intros Hn. split; [reflexivity |]. split.
  - apply Forall_forall. intros p Hp.
    pose proof (proj1 (forallb_forall pattern_ok digitPattern)
                  digitPattern_ok p Hp) as Hok.
    unfold pattern_ok in Hok.
    apply andb_prop in Hok as [Hok _]. apply andb_prop in Hok as [Hb _].
    exact Hb.
  - destruct (displayNumber_returns number showDecimal decimalPos h Hn)
      as [h' H].
    destruct (displayNumber_inv number showDecimal decimalPos h h' H)
      as (s0 & s1 & s2 & s3 & H0 & H1 & H2 & H3 & L).
    exists h', s0, s1, s2, s3.
    apply segments_at_point in H0, H1, H2, H3.
    repeat split; assumption.
Qed.

Lemma C10_point_only_where_cleared_witness :
  List.length digitPattern = 10%nat /\
  Forall (fun p => Z.testbit p 7 = true) digitPattern /\
  exists h' s0 s1 s2 s3,
    displayNumber 1889 false 1 hw_init = Some h' /\
    log h' = log hw_init ++ frame_events s0 0x01 ++ frame_events s1 0x02
               ++ frame_events s2 0x04 ++ frame_events s3 0x08 /\
    point_lit s0 = false && (0 =? 1) /\
    point_lit s1 = false && (1 =? 1) /\
    point_lit s2 = false && (2 =? 1) /\
    point_lit s3 = false && (3 =? 1).
Proof.
  apply (C10_point_only_where_cleared 1889 false 1 hw_init). lia.
Defined.

(** C10 as stated fails: in the call [displayNumber(-1)], which asks for
    no decimal point, the digit of slot 3 is -1 and its segment byte is
    read outside [digitPattern]: the call has no outcome in which the
    four slots carry a segment byte with the point off. *)
Lemma C10_negative_counterexample :
  segments_at (digits (-1)) false 1 3 = None /\
  ~ (exists h' s0 s1 s2 s3,
       displayNumber (-1) false 1 hw_init = Some h' /\
       log h' = log hw_init ++ frame_events s0 0x01 ++ frame_events s1 0x02
                  ++ frame_events s2 0x04 ++ frame_events s3 0x08 /\
       point_lit s0 = false /\ point_lit s1 = false /\
       point_lit s2 = false /\ point_lit s3 = false).
Proof.
  split.
  - vm_compute. reflexivity.
  - intros (h' & s0 & s1 & s2 & s3 & E & _).
    vm_compute in E. discriminate E.
Qed.

(** *** Further properties of the multiplexer *)

Lemma pins_displayNumber (number : Z) (sd : bool) (dp : Z) (h h' : hw) :
  displayNumber number sd dp h = Some h' ->
  latchPin h' = 1 /\ clockPin h' = 0 /\ dataPin h' = 0.
Proof.
  unfold displayNumber. cbn [displayNumber_loop]. intros H.
  destruct (displayNumber_body _ sd dp 0 h) as [h0 |]; [| discriminate].
  destruct (displayNumber_body _ sd dp (0 + 1) h0) as [h1 |];
    [| discriminate].
  destruct (displayNumber_body _ sd dp (0 + 1 + 1) h1) as [h2 |];
    [| discriminate].
  destruct (displayNumber_body _ sd dp (0 + 1 + 1 + 1) h2) as [h3 |] eqn:E3;
    [| discriminate].
  injection H as <-.
  apply pins_displayNumber_body in E3 as (Hl & Hc & pos & Hp & Hd).
  change (index digitPos (0 + 1 + 1 + 1)) with (Some 8) in Hp.
  injection Hp as <-.
  repeat split; assumption.
Qed.

(** The events of a call that returns: four frames. *)
Lemma displayNumber_events (number : Z) (sd : bool) (dp : Z) (h h' : hw) :
  displayNumber number sd dp h = Some h' ->
  exists s0 s1 s2 s3,
    log h' = log h ++ frame_events s0 0x01 ++ frame_events s1 0x02
               ++ frame_events s2 0x04 ++ frame_events s3 0x08 ++ [].
Proof.
  intros H.
  destruct (displayNumber_inv number sd dp h h' H)
    as (s0 & s1 & s2 & s3 & _ & _ & _ & _ & L).
  exists s0, s1, s2, s3. rewrite app_nil_r. exact L.
Qed.

(** X4: a call of [displayNumber] that starts with the clock line low
    and returns writes the clock line only while the latch line is low
    and the data line only while the clock line is low, and it leaves
    the latch line high and the clock and data lines low. *)
Theorem X4_displayNumber_bus
  (number : Z) (showDecimal : bool) (decimalPos : Z) (h h' : hw) :
  clockPin h = 0 ->
  displayNumber number showDecimal decimalPos h = Some h' ->
  exists evs,
    log h' = log h ++ evs /\
    bus_ok (latchPin h) (clockPin h) evs = true /\
    latchPin h' = 1 /\ clockPin h' = 0 /\ dataPin h' = 0.
Proof.
  intros Hc H.
  destruct (displayNumber_events _ _ _ _ _ H) as (s0 & s1 & s2 & s3 & L).
  eexists. split; [exact L |].
  split; [| exact (pins_displayNumber _ _ _ _ _ H)].
  rewrite Hc, !bus_ok_frame. reflexivity.
Qed.

Lemma X4_displayNumber_bus_witness :
  exists h', displayNumber 1234 true 1 hw_init = Some h' /\
  exists evs,
    log h' = log hw_init ++ evs /\
    bus_ok (latchPin hw_init) (clockPin hw_init) evs = true /\
    latchPin h' = 1 /\ clockPin h' = 0 /\ dataPin h' = 0.
Proof.
  eexists. split; [vm_compute; reflexivity |].
  eapply (X4_displayNumber_bus 1234 true 1 hw_init);
    [reflexivity | vm_compute; reflexivity].
Defined.

(** X5: every call of [displayNumber] that returns adds 204 events to
    the log, with 64 clock pulses, 4 rises of the latch line and 8
    milliseconds of sleep. *)
Theorem X5_displayNumber_tally
  (number : Z) (showDecimal : bool) (decimalPos : Z) (h h' : hw) :
  displayNumber number showDecimal decimalPos h = Some h' ->
  exists evs,
    log h' = log h ++ evs /\
    List.length evs = 204%nat /\
    clock_pulses evs = 64%nat /\
    latch_pulses evs = 4%nat /\
    total_sleep evs = 8.
Proof.
  intros H.
  destruct (displayNumber_events _ _ _ _ _ H) as (s0 & s1 & s2 & s3 & L).
  eexists. split; [exact L |].
  split; [| split; [| split]].
  - rewrite !length_app, !frame_events_length. reflexivity.
  - rewrite !clock_pulses_frame. reflexivity.
  - rewrite !latch_pulses_frame. reflexivity.
  - rewrite !total_sleep_frame. reflexivity.
Qed.

Lemma X5_displayNumber_tally_witness :
  exists h', displayNumber 9959 true 1 hw_init = Some h' /\
  exists evs,
    log h' = log hw_init ++ evs /\
    List.length evs = 204%nat /\
    clock_pulses evs = 64%nat /\
    latch_pulses evs = 4%nat /\
    total_sleep evs = 8.
Proof.
  eexists. split; [vm_compute; reflexivity |].
  eapply (X5_displayNumber_tally 9959 true 1 hw_init).
  vm_compute; reflexivity.
Defined.

(** The four digits spell the remainder of the number by 10000. *)
Lemma value_of_digits (number : Z) :
  value_of (digits number) = Z.rem number 10000.
Proof.
  unfold value_of, digits. cbn [fold_left].
  Z.quot_rem_to_equations. lia.
Qed.

Lemma digits_signed (number : Z) :
  Forall (fun d => - 9 <= d <= 9 /\
                   (0 <= number -> 0 <= d) /\ (number <= 0 -> d <= 0))
         (digits number).
Proof.
  unfold digits.
  repeat apply Forall_cons; try apply Forall_nil;
    Z.quot_rem_to_equations; lia.
Qed.

(** X6: for every [int], negative ones included, the four digits taken
    by [displayNumber] spell the remainder of the number by 10000 (the
    truncating one, which has the sign of the number); each digit lies
    between -9 and 9 and none has the sign opposite to the number's. *)
Theorem X6_digits_spell_remainder (number : Z) :
  value_of (digits number) = Z.rem number 10000 /\
  Forall (fun d => - 9 <= d <= 9 /\
                   (0 <= number -> 0 <= d) /\ (number <= 0 -> d <= 0))
         (digits number).
Proof.
  split; [apply value_of_digits | apply digits_signed].
Qed.

Lemma index_Some_bounds (tbl : list Z) (i v : Z) :
  index tbl i = Some v -> 0 <= i < Z.of_nat (List.length tbl).
Proof.
  unfold index. destruct (Z.ltb_spec i 0) as [| Hi]; [discriminate |].
  intros H.
  assert (Hn : nth_error tbl (Z.to_nat i) <> None) by congruence.
  apply nth_error_Some in Hn. lia.
Qed.

(** A call returns exactly when the four digits are table indices. *)
Lemma displayNumber_returns_iff (number : Z) (sd : bool) (dp : Z) (h : hw) :
  (exists h', displayNumber number sd dp h = Some h') <->
  Forall (fun d => 0 <= d <= 9) (digits number).
Proof.
  split.
  - intros [h' H].
    destruct (displayNumber_inv number sd dp h h' H)
      as (s0 & s1 & s2 & s3 & H0 & H1 & H2 & H3 & _).
    assert (Hd : forall i s d, segments_at (digits number) sd dp i = Some s ->
                   index (digits number) i = Some d -> 0 <= d <= 9).
    { intros i s d Hs Hi.
      apply segments_at_inv in Hs as (d' & p & Hi' & Hp & _).
      rewrite Hi in Hi'. injection Hi' as <-.
      apply index_Some_bounds in Hp. rewrite digitPattern_length in Hp. lia. }
    unfold digits in *.
    repeat apply Forall_cons; try apply Forall_nil.
    + apply (Hd 0 s0 _ H0 eq_refl).
    + apply (Hd 1 s1 _ H1 eq_refl).
    + apply (Hd 2 s2 _ H2 eq_refl).
    + apply (Hd 3 s3 _ H3 eq_refl).
  - intros HF.
    assert (Hseg : forall i d, index (digits number) i = Some d ->
              exists seg, segments_at (digits number) sd dp i = Some seg).
    { intros i d Hd. unfold segments_at. rewrite Hd.
      rewrite Forall_forall in HF.
      specialize (HF d (index_Some_In _ _ _ Hd)).
      destruct (index_in_bounds digitPattern d) as [p Hp].
      { rewrite digitPattern_length. lia. }
      rewrite Hp. eexists. reflexivity. }
    unfold displayNumber. cbn [displayNumber_loop]. unfold displayNumber_body.
    change (0 + 1 + 1 + 1) with 3. change (0 + 1 + 1) with 2.
    change (0 + 1) with 1.
    destruct (Hseg 0 _ eq_refl) as [s0 ->].
    destruct (Hseg 1 _ eq_refl) as [s1 ->].
    destruct (Hseg 2 _ eq_refl) as [s2 ->].
    destruct (Hseg 3 _ eq_refl) as [s3 ->].
    change (index digitPos 0) with (Some 1).
    change (index digitPos 1) with (Some 2).
    change (index digitPos 2) with (Some 4).
    change (index digitPos 3) with (Some 8).
    eexists. reflexivity.
Qed.

(** X7: [displayNumber] reads [digitPattern] outside its bounds, and so
    has no defined outcome, exactly for the negative numbers that are
    not multiples of 10000; for every other number it returns. *)
Theorem X7_displayNumber_defined
  (number : Z) (showDecimal : bool) (decimalPos : Z) (h : hw) :
  (exists h', displayNumber number showDecimal decimalPos h = Some h') <->
  (0 <= number \/ Z.rem number 10000 = 0).
Proof.
  rewrite displayNumber_returns_iff.
  unfold digits. split.
  - intros HF.
    inversion_clear HF as [| ? ? H0 HF1].
    inversion_clear HF1 as [| ? ? H1 HF2].
    inversion_clear HF2 as [| ? ? H2 HF3].
    inversion_clear HF3 as [| ? ? H3 _].
    revert H0 H1 H2 H3. Z.quot_rem_to_equations. lia.
  - intros H.
    repeat apply Forall_cons; try apply Forall_nil;
      Z.quot_rem_to_equations; lia.
Qed.

(** *** Telling numbers apart *)

(** No two digits share a pattern, with the point lit or not. *)
Lemma digitPattern_inj (c : bool) (d e p q : Z) :
  index digitPattern d = Some p -> index digitPattern e = Some q ->
  (if c then to_uint8 (Z.land p (Z.lnot 0x80)) else p) =
  (if c then to_uint8 (Z.land q (Z.lnot 0x80)) else q) ->
  d = e.
Proof.
  intros Hp Hq H.
  assert (Hd : d = 0 \/ d = 1 \/ d = 2 \/ d = 3 \/ d = 4 \/
               d = 5 \/ d = 6 \/ d = 7 \/ d = 8 \/ d = 9).
  { pose proof (index_Some_bounds _ _ _ Hp) as B.
    rewrite digitPattern_length in B. lia. }
  assert (He : e = 0 \/ e = 1 \/ e = 2 \/ e = 3 \/ e = 4 \/
               e = 5 \/ e = 6 \/ e = 7 \/ e = 8 \/ e = 9).
  { pose proof (index_Some_bounds _ _ _ Hq) as B.
    rewrite digitPattern_length in B. lia. }
  destruct c;
    repeat match goal with
           | D : _ \/ _ |- _ => destruct D as [D | D]
           end;
    subst d e; vm_compute in Hp, Hq;
    injection Hp as Hp; injection Hq as Hq; subst p q;
    vm_compute in H; first [reflexivity | discriminate H].
Qed.

Lemma segments_at_inj (ds ds' : list Z) (sd : bool) (dp i s : Z) :
  segments_at ds sd dp i = Some s -> segments_at ds' sd dp i = Some s ->
  index ds i = index ds' i.
Proof.
  intros H H'.
  apply segments_at_inv in H as (d & p & Hd & Hp & Hs).
  apply segments_at_inv in H' as (d' & p' & Hd' & Hp' & Hs').
  rewrite Hd, Hd'. f_equal.
  apply (digitPattern_inj (sd && (i =? dp)) d d' p p' Hp Hp').
  congruence.
Qed.

Lemma app_same_length_inv (a a' l l' : list event) :
  List.length a = List.length a' -> a ++ l = a' ++ l' -> a = a' /\ l = l'.
Proof.
  revert a'. induction a as [| x a IH]; intros [| x' a'] Hlen H;
    try discriminate Hlen.
  - split; [reflexivity | exact H].
  - cbn [app] in H. injection H as -> H.
    injection Hlen as Hlen.
    destruct (IH a' Hlen H) as [-> ->]. split; reflexivity.
Qed.

(** The segment byte of a frame can be read back from its events. *)
Lemma frame_events_inj (s s' pos : Z) (l l' : list event) :
  is_uint8 s -> is_uint8 s' ->
  frame_events s pos ++ l = frame_events s' pos ++ l' ->
  s = s' /\ l = l'.
Proof.
  intros Hs Hs' H.
  apply app_same_length_inv in H as [Hf ->];
    [| rewrite !frame_events_length; reflexivity].
  split; [| reflexivity].
  unfold frame_events in Hf.
  apply (app_inv_head [Write LatchPin 0]) in Hf.
  apply app_same_length_inv in Hf as [Hb _]; [| reflexivity].
  apply byte_events_inj; assumption.
Qed.

(** X8: two different numbers of [0..9999] make [displayNumber] log
    different pin writes: the display tells every reading of up to four
    digits from every other. *)
Theorem X8_displayNumber_injective
  (n m : Z) (showDecimal : bool) (decimalPos : Z) (h : hw) :
  0 <= n <= 9999 -> 0 <= m <= 9999 -> n <> m ->
  option_map log (displayNumber n showDecimal decimalPos h) <>
  option_map log (displayNumber m showDecimal decimalPos h).
Proof.
  intros Hn Hm Hne Heq. apply Hne. clear Hne.
  destruct (displayNumber_returns n showDecimal decimalPos h) as [hn En];
    [lia |].
  destruct (displayNumber_returns m showDecimal decimalPos h) as [hm Em];
    [lia |].
  rewrite En, Em in Heq. cbn [option_map] in Heq. injection Heq as Hlog.
  destruct (displayNumber_inv _ _ _ _ _ En)
    as (s0 & s1 & s2 & s3 & A0 & A1 & A2 & A3 & Ln).
  destruct (displayNumber_inv _ _ _ _ _ Em)
    as (t0 & t1 & t2 & t3 & B0 & B1 & B2 & B3 & Lm).
  rewrite Ln, Lm in Hlog. apply app_inv_head in Hlog.
  pose proof (segments_at_uint8 _ _ _ _ _ A0).
  pose proof (segments_at_uint8 _ _ _ _ _ A1).
  pose proof (segments_at_uint8 _ _ _ _ _ A2).
  pose proof (segments_at_uint8 _ _ _ _ _ A3).
  pose proof (segments_at_uint8 _ _ _ _ _ B0).
  pose proof (segments_at_uint8 _ _ _ _ _ B1).
  pose proof (segments_at_uint8 _ _ _ _ _ B2).
  pose proof (segments_at_uint8 _ _ _ _ _ B3).
  apply frame_events_inj in Hlog as [<- Hlog]; [| assumption ..].
  apply frame_events_inj in Hlog as [<- Hlog]; [| assumption ..].
  apply frame_events_inj in Hlog as [<- Hlog]; [| assumption ..].
  rewrite <- (app_nil_r (frame_events s3 _)) in Hlog.
  rewrite <- (app_nil_r (frame_events t3 _)) in Hlog.
  apply frame_events_inj in Hlog as [<- _]; [| assumption ..].
  pose proof (segments_at_inj _ _ _ _ _ _ A0 B0) as D0.
  pose proof (segments_at_inj _ _ _ _ _ _ A1 B1) as D1.
  pose proof (segments_at_inj _ _ _ _ _ _ A2 B2) as D2.
  pose proof (segments_at_inj _ _ _ _ _ _ A3 B3) as D3.
  unfold digits in D0, D1, D2, D3.
  cbn [index Z.ltb Z.compare Z.to_nat Pos.to_nat Pos.iter_op Nat.add nth_error]
    in D0, D1, D2, D3.
  injection D0 as D0. injection D1 as D1.
  injection D2 as D2. injection D3 as D3.
  assert (E : digits n = digits m).
  { unfold digits. rewrite D0, D1, D2, D3. reflexivity. }
  pose proof (value_of_digits n) as Vn.
  pose proof (value_of_digits m) as Vm.
  rewrite E, Vm in Vn.
  rewrite !Z.rem_small in Vn by lia. symmetry. exact Vn.
Qed.

Lemma X8_displayNumber_injective_witness :
  option_map log (displayNumber 1359 true 1 hw_init) <>
  option_map log (displayNumber 1358 true 1 hw_init).
Proof.
  apply (X8_displayNumber_injective 1359 1358 true 1 hw_init); lia.
Defined.

(** X16: each entry of [digitPattern] lights exactly the segments that
    the table's comments give for its digit, and lighting the decimal
    point of a segment byte changes none of its seven segments. *)
Theorem X16_patterns_as_documented :
  map lit_segments digitPattern = documented_segments /\
  forall segments,
    lit_segments (to_uint8 (Z.land segments (Z.lnot 0x80))) =
    lit_segments segments.
Proof.
  split; [vm_compute; reflexivity |].
  intros p. unfold lit_segments. cbn [filter segment_bit].
  rewrite !clear_point_low_bits by lia. reflexivity.
Qed.

End DisplayFacts.

(** ** The polling loop *)
Module MainFacts.
Import MachInt Clock ShiftReg Display Main.

(** The literal [3.3f] is a binary32 number, the one that 33/10 rounds
    to. *)
Lemma lit_3_3_correct :
  valid_binary Float32.prec Float32.emax Float32.lit_3_3 = true /\
  Float32.div (Float32.of_int 33) (Float32.of_int 10) = Float32.lit_3_3.
Proof. split; vm_compute; reflexivity. Qed.

(** C3: a raw sample of 65535 scales to the voltage [3.3f] and shows as
    3300; a raw sample of 0 shows as 0. *)
Theorem C3_voltage_scaling :
  voltage 65535 = Float32.lit_3_3 /\
  displayVal 65535 = Some 3300 /\
  displayVal 0 = Some 0.
Proof. repeat split; vm_compute; reflexivity. Qed.

(** While the counters are in range the value shown is a number of at
    most four digits, and the pass that shows it returns. *)
Lemma timeValue_range (t : time) :
  in_range t -> timeValue t = minutes t * 100 + seconds t /\
                0 <= timeValue t <= 9959.
Proof.
  intros [Hs Hm]. unfold timeValue.
  rewrite !MachIntFacts.wrap_int_id
    by (unfold in_int, int_min, int_max; try rewrite MachIntFacts.wrap_int_id;
        unfold in_int, int_min, int_max; lia).
  lia.
Qed.

Lemma main_pass_time_returns (i : inputs) (w : world) :
  in_range (clock w) -> s3 i <> 0 ->
  exists h, main_pass i w = Some (mkWorld (if s1 i =? 0 then mkTime 0 0
                                           else clock w) h).
Proof.
  intros Hr Hs3. unfold main_pass.
  destruct (Z.eqb_spec (s3 i) 0) as [E | _]; [contradiction |].
  destruct (s1 i =? 0); cbn [clock board].
  - destruct (DisplayFacts.displayNumber_returns
                (timeValue (reset (clock w))) true 1
                (sleep_for 200 (board w))) as [h Hh].
    { apply timeValue_range, ClockFacts.reset_in_range. }
    rewrite Hh. exists h. reflexivity.
  - destruct (DisplayFacts.displayNumber_returns
                (timeValue (clock w)) true 1 (board w)) as [h Hh].
    { apply timeValue_range, Hr. }
    rewrite Hh. exists h. reflexivity.
Qed.

(** The scaling follows the sample: half of full scale shows as 1650. *)
Lemma displayVal_mid_scale : displayVal 32768 = Some 1650.
Proof. vm_compute. reflexivity. Qed.

(** C8: from 59 seconds and 3 minutes one call of [updateTime] gives 0
    seconds and 4 minutes; the loop then shows [minutes * 100 + seconds
    = 400], split into the digits 0, 4, 0, 0, with the point lit on
    slot 1 only, which reads 04.00. *)
Theorem C8_end_to_end (raw : Z) :
  updateTime (mkTime 59 3) = mkTime 0 4 /\
  timeValue (mkTime 0 4) = 400 /\
  digits 400 = [0; 4; 0; 0] /\
  option_map (fun w => (clock w, log (board w)))
    (main_pass (mkInputs 1 1 raw)
       (mkWorld (updateTime (mkTime 59 3)) hw_init)) =
    Some (mkTime 0 4,
          frame_events 0xC0 0x01 ++ frame_events 0x19 0x02
            ++ frame_events 0xC0 0x04 ++ frame_events 0xC0 0x08) /\
  map point_lit [0xC0; 0x19; 0xC0; 0xC0] = [false; true; false; false] /\
  map (find_pattern digitPattern 0) [0xC0; 0x19; 0xC0; 0xC0] =
    [Some 0; Some 4; Some 0; Some 0] /\
  render [0xC0; 0x19; 0xC0; 0xC0] = Some "04.00"%string.
Proof. repeat split; vm_compute; reflexivity. Qed.

(** *** The scaling of every sample *)

Lemma all_from_sound (P : Z -> bool) (n : nat) : forall z,
  all_from n P z = true ->
  forall k, z <= k < z + Z.of_nat n -> P k = true.
Proof.
  induction n as [| n IH]; intros z H k Hk.
  - lia.
  - cbn [all_from] in H. apply andb_prop in H as [Hz Hrest].
    destruct (Z.eq_dec k z) as [-> | Hne]; [exact Hz |].
    apply (IH (z + 1) Hrest). lia.
Qed.

Lemma scaled_ok_all : all_from (Z.to_nat 65536) scaled_ok 0 = true.
Proof. vm_compute. reflexivity. Qed.

Lemma displayVal_scaled (raw : Z) :
  is_sample raw -> displayVal raw = Some (scaled raw).
Proof.
  unfold is_sample. intros Hr.
  pose proof (all_from_sound scaled_ok _ 0 scaled_ok_all raw ltac:(lia)) as H.
  unfold scaled_ok in H.
  destruct (displayVal raw) as [v |]; [| discriminate].
  apply Z.eqb_eq in H. rewrite H. reflexivity.
Qed.

Lemma scaled_range (raw : Z) : is_sample raw -> 0 <= scaled raw <= 3300.
Proof.
  unfold is_sample, scaled. intros Hr.
  destruct (Z.eqb_spec raw 13107); [subst; cbn; lia |].
  destruct (Z.eqb_spec raw 26214); [subst; cbn; lia |].
  destruct (Z.eqb_spec raw 39321); [subst; cbn; lia |].
  destruct (Z.eqb_spec raw 52428); [subst; cbn; lia |].
  cbn [orb]. Z.div_mod_to_equations. lia.
Qed.

Lemma scaled_monotone (r1 r2 : Z) :
  is_sample r1 -> is_sample r2 -> r1 <= r2 -> scaled r1 <= scaled r2.
Proof.
  unfold is_sample, scaled. intros H1 H2 Hle.
  destruct (Z.eqb_spec r1 13107), (Z.eqb_spec r1 26214),
           (Z.eqb_spec r1 39321), (Z.eqb_spec r1 52428);
    try lia;
    destruct (Z.eqb_spec r2 13107), (Z.eqb_spec r2 26214),
             (Z.eqb_spec r2 39321), (Z.eqb_spec r2 52428);
    try lia; cbn [orb]; subst;
    Z.div_mod_to_equations; lia.
Qed.

(** X9: for every 16-bit sample the value shown in voltage mode is
    [raw * 3300 / 65535] rounded down, except at the samples 13107,
    26214, 39321 and 52428, where single-precision rounding makes it one
    less (659, 1319, 1979 and 2639). *)
Theorem X9_displayVal_exact (raw : Z) :
  is_sample raw ->
  displayVal raw =
    Some (raw * 3300 / 65535
          - (if (raw =? 13107) || (raw =? 26214) || (raw =? 39321)
                || (raw =? 52428)
             then 1 else 0)).
Proof. intros Hr. apply displayVal_scaled. exact Hr. Qed.

Lemma X9_displayVal_exact_witness :
  displayVal 13107 = Some (13107 * 3300 / 65535 - 1).
Proof.
  apply (X9_displayVal_exact 13107). unfold is_sample. lia.
Defined.

(** X10: the value shown in voltage mode never leaves [0..3300] and
    never goes down when the sample goes up. *)
Theorem X10_displayVal_monotone (r1 r2 : Z) :
  is_sample r1 -> is_sample r2 -> r1 <= r2 ->
  exists v1 v2,
    displayVal r1 = Some v1 /\ displayVal r2 = Some v2 /\
    0 <= v1 /\ v1 <= v2 /\ v2 <= 3300.
Proof.
  intros H1 H2 Hle.
  exists (scaled r1), (scaled r2).
  rewrite !displayVal_scaled by assumption.
  pose proof (scaled_range r1 H1). pose proof (scaled_range r2 H2).
  pose proof (scaled_monotone r1 r2 H1 H2 Hle).
  repeat split; lia.
Qed.

Lemma X10_displayVal_monotone_witness :
  exists v1 v2,
    displayVal 13106 = Some v1 /\ displayVal 13107 = Some v2 /\
    0 <= v1 /\ v1 <= v2 /\ v2 <= 3300.
Proof.
  apply (X10_displayVal_monotone 13106 13107); unfold is_sample; lia.
Defined.

(** *** One pass of the loop, and many *)

(** X11: with both counters in range the value shown in time mode has
    the tens and units of [minutes] on slots 0 and 1 and the tens and
    units of [seconds] on slots 2 and 3; this holds as well when the
    ticker callback runs between the read of [minutes] and the read of
    [seconds], each digit pair then coming from its own state, and the
    value stays within [0..9959]. *)
Theorem X11_time_digits (at_minutes at_seconds : time) :
  in_range at_minutes -> in_range at_seconds ->
  timeValue at_minutes = timeValue_torn at_minutes at_minutes /\
  0 <= timeValue_torn at_minutes at_seconds <= 9959 /\
  digits (timeValue_torn at_minutes at_seconds) =
    [ minutes at_minutes / 10; minutes at_minutes mod 10;
      seconds at_seconds / 10; seconds at_seconds mod 10 ].
Proof.
  intros [_ Hm] [Hs _].
  split; [reflexivity |].
  unfold timeValue_torn.
  rewrite (MachIntFacts.wrap_int_id (minutes at_minutes * 100))
    by (unfold in_int, int_min, int_max; lia).
  rewrite MachIntFacts.wrap_int_id
    by (unfold in_int, int_min, int_max; lia).
  split; [lia |].
  set (m := minutes at_minutes) in *. set (s := seconds at_seconds) in *.
  assert (Q : forall c, 0 < c ->
            Z.rem (Z.quot (m * 100 + s) c) 10 = ((m * 100 + s) / c) mod 10).
  { intros c Hc. rewrite Z.quot_div_nonneg by lia.
    apply Z.rem_mod_nonneg; [apply Z.div_pos |]; lia. }
  unfold digits. rewrite !Q by lia. rewrite Z.rem_mod_nonneg by lia.
  replace (((m * 100 + s) / 1000) mod 10) with (m / 10)
    by (Z.div_mod_to_equations; lia).
  replace (((m * 100 + s) / 100) mod 10) with (m mod 10)
    by (Z.div_mod_to_equations; lia).
  replace (((m * 100 + s) / 10) mod 10) with (s / 10)
    by (Z.div_mod_to_equations; lia).
  replace ((m * 100 + s) mod 10) with (s mod 10)
    by (Z.div_mod_to_equations; lia).
  reflexivity.
Qed.

Lemma X11_time_digits_witness :
  timeValue (mkTime 59 3) = timeValue_torn (mkTime 59 3) (mkTime 59 3) /\
  0 <= timeValue_torn (mkTime 59 3) (mkTime 0 4) <= 9959 /\
  digits (timeValue_torn (mkTime 59 3) (mkTime 0 4)) =
    [ 3 / 10; 3 mod 10; 0 / 10; 0 mod 10 ].
Proof.
  apply (X11_time_digits (mkTime 59 3) (mkTime 0 4));
    unfold in_range; cbn; lia.
Defined.

Lemma main_pass_safe (i : inputs) (w : world) :
  is_sample (potentiometer i) -> in_range (clock w) ->
  exists w',
    main_pass i w = Some w' /\
    clock w' = (if s1 i =? 0 then mkTime 0 0 else clock w) /\
    in_range (clock w') /\
    latchPin (board w') = 1 /\ clockPin (board w') = 0 /\
    dataPin (board w') = 0.
Proof.
  intros Hraw Hr. unfold main_pass.
  set (w1 := if s1 i =? 0
             then mkWorld (reset (clock w)) (sleep_for 200 (board w))
             else w).
  assert (Hc1 : clock w1 = (if s1 i =? 0 then mkTime 0 0 else clock w)).
  { unfold w1. destruct (s1 i =? 0); reflexivity. }
  assert (Hr1 : in_range (clock w1)).
  { rewrite Hc1. destruct (s1 i =? 0); [unfold in_range; cbn; lia | exact Hr]. }
  clearbody w1.
  destruct (s3 i =? 0).
  - rewrite (displayVal_scaled _ Hraw).
    destruct (DisplayFacts.displayNumber_returns
                (scaled (potentiometer i)) true 0 (board w1)) as [h Hh].
    { apply scaled_range, Hraw. }
    rewrite Hh. eexists. split; [reflexivity |]. cbn [clock board].
    split; [exact Hc1 |]. split; [exact Hr1 |].
    exact (DisplayFacts.pins_displayNumber _ _ _ _ _ Hh).
  - destruct (DisplayFacts.displayNumber_returns
                (timeValue (clock w1)) true 1 (board w1)) as [h Hh].
    { apply timeValue_range, Hr1. }
    rewrite Hh. eexists. split; [reflexivity |]. cbn [clock board].
    split; [exact Hc1 |]. split; [exact Hr1 |].
    exact (DisplayFacts.pins_displayNumber _ _ _ _ _ Hh).
Qed.

(** X12: with the counters in range and a 16-bit sample, a pass of the
    loop returns whatever the buttons: no table is read out of bounds.
    The counters are cleared when button S1 reads 0 and left alone
    otherwise, also while S3 is held, and the pass ends with the latch
    line high and the clock and data lines low. *)
Theorem X12_main_pass_safe (i : inputs) (w : world) :
  is_sample (potentiometer i) -> in_range (clock w) ->
  exists w',
    main_pass i w = Some w' /\
    clock w' = (if s1 i =? 0 then mkTime 0 0 else clock w) /\
    in_range (clock w') /\
    latchPin (board w') = 1 /\ clockPin (board w') = 0 /\
    dataPin (board w') = 0.
Proof.
  exact (main_pass_safe i w).
Qed.

Lemma X12_main_pass_safe_witness :
  exists w',
    main_pass (mkInputs 0 0 40000) (mkWorld (mkTime 12 34) hw_init)
      = Some w' /\
    clock w' = mkTime 0 0 /\
    in_range (clock w') /\
    latchPin (board w') = 1 /\ clockPin (board w') = 0 /\
    dataPin (board w') = 0.
Proof.
  apply (X12_main_pass_safe (mkInputs 0 0 40000)
           (mkWorld (mkTime 12 34) hw_init));
    [unfold is_sample | unfold in_range]; cbn; lia.
Defined.

(** X13: a pass that returns appends to the log the 200 ms debounce
    sleep when button S1 reads 0, and then four frames, slots 0 to 3 in
    turn; the decimal point is lit on slot 0 alone when button S3 reads
    0 (voltage) and on slot 1 alone otherwise (time). *)
Theorem X13_main_pass_frames (i : inputs) (w w' : world) :
  main_pass i w = Some w' ->
  exists b0 b1 b2 b3,
    log (board w') =
      log (board w) ++ (if s1 i =? 0 then [Sleep 200] else [])
        ++ frame_events b0 0x01 ++ frame_events b1 0x02
        ++ frame_events b2 0x04 ++ frame_events b3 0x08 /\
    map point_lit [b0; b1; b2; b3] =
      (if s3 i =? 0 then [true; false; false; false]
       else [false; true; false; false]).
Proof.
  unfold main_pass. intros H.
  set (w1 := if s1 i =? 0
             then mkWorld (reset (clock w)) (sleep_for 200 (board w))
             else w) in H.
  assert (L1 : log (board w1) =
               log (board w) ++ (if s1 i =? 0 then [Sleep 200] else [])).
  { unfold w1. destruct (s1 i =? 0); cbn [board].
    - reflexivity.
    - rewrite app_nil_r. reflexivity. }
  clearbody w1.
  destruct (s3 i =? 0).
  - destruct (displayVal (potentiometer i)) as [v |]; [| discriminate].
    destruct (displayNumber v true 0 (board w1)) as [h |] eqn:E;
      [| discriminate].
    injection H as <-. cbn [board].
    destruct (DisplayFacts.displayNumber_inv _ _ _ _ _ E)
      as (b0 & b1 & b2 & b3 & H0 & H1 & H2 & H3 & L).
    exists b0, b1, b2, b3. split.
    + rewrite L, L1, <- !app_assoc. reflexivity.
    + apply DisplayFacts.segments_at_point in H0, H1, H2, H3.
      cbn [map]. rewrite H0, H1, H2, H3. reflexivity.
  - destruct (displayNumber (timeValue (clock w1)) true 1 (board w1))
      as [h |] eqn:E; [| discriminate].
    injection H as <-. cbn [board].
    destruct (DisplayFacts.displayNumber_inv _ _ _ _ _ E)
      as (b0 & b1 & b2 & b3 & H0 & H1 & H2 & H3 & L).
    exists b0, b1, b2, b3. split.
    + rewrite L, L1, <- !app_assoc. reflexivity.
    + apply DisplayFacts.segments_at_point in H0, H1, H2, H3.
      cbn [map]. rewrite H0, H1, H2, H3. reflexivity.
Qed.

Lemma X13_main_pass_frames_witness :
  exists w',
    main_pass (mkInputs 0 1 0) (mkWorld (mkTime 59 3) hw_init) = Some w' /\
  exists b0 b1 b2 b3,
    log (board w') =
      log hw_init ++ [Sleep 200]
        ++ frame_events b0 0x01 ++ frame_events b1 0x02
        ++ frame_events b2 0x04 ++ frame_events b3 0x08 /\
    map point_lit [b0; b1; b2; b3] = [false; true; false; false].
Proof.
  eexists. split; [vm_compute; reflexivity |].
  eapply (X13_main_pass_frames (mkInputs 0 1 0)
            (mkWorld (mkTime 59 3) hw_init)).
  vm_compute; reflexivity.
Defined.

(** Lighting the point of a byte that has it off takes 0x80 away. *)
Lemma clear_point_value (p : Z) :
  Z.testbit p 7 = true -> is_uint8 p ->
  p = to_uint8 (Z.land p (Z.lnot 0x80)) + 0x80.
Proof.
  intros Hb Hu.
  assert (H : all_from (Z.to_nat 256)
                (fun q => negb (Z.testbit q 7)
                          || (q =? to_uint8 (Z.land q (Z.lnot 0x80)) + 0x80))
                0 = true) by (vm_compute; reflexivity).
  pose proof (all_from_sound _ _ 0 H p) as Hp. cbn beta in Hp.
  unfold is_uint8 in Hu. specialize (Hp ltac:(lia)).
  rewrite Hb in Hp. cbn [negb orb] in Hp.
  apply Z.eqb_eq in Hp. exact Hp.
Qed.

(** Without a callback during the sleep this is the pass as written. *)
Lemma main_pass_ticked_0 (i : inputs) (w : world) :
  main_pass_ticked i 0 w = main_pass i w.
Proof.
  unfold main_pass_ticked, debounce, show, main_pass. cbn [ticks].
  reflexivity.
Qed.

Lemma digits_timeValue (t : time) :
  in_range t ->
  digits (timeValue t) =
    [ minutes t / 10; minutes t mod 10; seconds t / 10; seconds t mod 10 ].
Proof.
  intros Ht. destruct (timeValue_range t Ht) as [-> _].
  destruct Ht as [Hs Hm].
  set (m := minutes t) in *. set (s := seconds t) in *.
  assert (Q : forall c, 0 < c ->
            Z.rem (Z.quot (m * 100 + s) c) 10 = ((m * 100 + s) / c) mod 10).
  { intros c Hc. rewrite Z.quot_div_nonneg by lia.
    apply Z.rem_mod_nonneg; [apply Z.div_pos |]; lia. }
  unfold digits. rewrite !Q by lia. rewrite Z.rem_mod_nonneg by lia.
  replace (((m * 100 + s) / 1000) mod 10) with (m / 10)
    by (Z.div_mod_to_equations; lia).
  replace (((m * 100 + s) / 100) mod 10) with (m mod 10)
    by (Z.div_mod_to_equations; lia).
  replace (((m * 100 + s) / 10) mod 10) with (s / 10)
    by (Z.div_mod_to_equations; lia).
  replace ((m * 100 + s) mod 10) with (s mod 10)
    by (Z.div_mod_to_equations; lia).
  reflexivity.
Qed.

(** X14: take a pass with button S1 reading 0 and button S3 released,
    during whose 200 ms sleep the ticker callback runs [k] times and
    which is not interrupted at any other point.  Whatever the counters
    were, the pass clears them, sleeps, and shows in the same pass what
    the counters read [k] seconds after 00:00: the four frames carry the
    patterns of the tens and units of the minutes, the point lit on the
    units, and of the tens and units of the seconds.  With no callback
    that is 00.00, with one callback 00.01. *)
Theorem X14_reset_pass_shows_elapsed (i : inputs) (k : nat) (w : world) :
  s1 i = 0 -> s3 i <> 0 ->
  let t := mkTime (Z.of_nat k mod 60) ((Z.of_nat k / 60) mod 100) in
  exists h b0 b1 b2 b3,
    main_pass_ticked i k w = Some (mkWorld t h) /\
    log h = log (board w) ++ [Sleep 200]
              ++ frame_events b0 0x01 ++ frame_events b1 0x02
              ++ frame_events b2 0x04 ++ frame_events b3 0x08 /\
    index digitPattern (minutes t / 10) = Some b0 /\
    index digitPattern (minutes t mod 10) = Some (b1 + 0x80) /\
    index digitPattern (seconds t / 10) = Some b2 /\
    index digitPattern (seconds t mod 10) = Some b3 /\
    (k = 0%nat ->
       main_pass i w = Some (mkWorld (mkTime 0 0) h) /\
       [b0; b1; b2; b3] = [0xC0; 0x40; 0xC0; 0xC0]) /\
    (k = 1%nat -> [b0; b1; b2; b3] = [0xC0; 0x40; 0xC0; 0xF9]).
Proof.
  intros H1 H3 t.
  assert (Ht : ticks k (reset (clock w)) = t).
  { change (reset (clock w)) with (of_elapsed 0).
    rewrite ClockFacts.ticks_of_elapsed. reflexivity. }
  assert (Hr : in_range t).
  { change t with (of_elapsed (Z.of_nat k)).
    apply ClockFacts.of_elapsed_in_range. }
  assert (E0 : main_pass_ticked i k w =
               show i (mkWorld t (sleep_for 200 (board w)))).
  { unfold main_pass_ticked, debounce. rewrite H1.
    change (0 =? 0) with true. cbv iota. rewrite Ht. reflexivity. }
  unfold show in E0.
  destruct (Z.eqb_spec (s3 i) 0) as [E | _]; [contradiction |].
  cbn [clock board] in E0.
  destruct (DisplayFacts.displayNumber_returns (timeValue t) true 1
              (sleep_for 200 (board w))) as [h Hh].
  { apply timeValue_range, Hr. }
  rewrite Hh in E0.
  destruct (DisplayFacts.displayNumber_inv _ _ _ _ _ Hh)
    as (b0 & b1 & b2 & b3 & A0 & A1 & A2 & A3 & L).
  rewrite (digits_timeValue t Hr) in A0, A1, A2, A3.
  apply DisplayFacts.segments_at_inv in A0 as (d0 & p0 & I0 & P0 & S0).
  apply DisplayFacts.segments_at_inv in A1 as (d1 & p1 & I1 & P1 & S1).
  apply DisplayFacts.segments_at_inv in A2 as (d2 & p2 & I2 & P2 & S2).
  apply DisplayFacts.segments_at_inv in A3 as (d3 & p3 & I3 & P3 & S3).
  injection I0 as <-. injection I1 as <-.
  injection I2 as <-. injection I3 as <-.
  change (true && (0 =? 1)) with false in S0.
  change (true && (1 =? 1)) with true in S1.
  change (true && (2 =? 1)) with false in S2.
  change (true && (3 =? 1)) with false in S3.
  cbv iota in S0, S1, S2, S3.
  assert (P1' : index digitPattern (minutes t mod 10) = Some (b1 + 0x80)).
  { unfold t; cbn [minutes seconds]. rewrite P1. f_equal. rewrite S1.
    destruct (DisplayFacts.index_digitPattern _ _ P1) as [Hb Hu].
    apply (clear_point_value p1 Hb Hu). }
  subst b0 b2 b3.
  exists h, p0, b1, p2, p3.
  split; [exact E0 |].
  split.
  { rewrite L, ShiftRegFacts.log_sleep_for, <- !app_assoc. reflexivity. }
  split; [exact P0 |]. split; [exact P1' |].
  split; [exact P2 |]. split; [exact P3 |].
  clear S1 P1 L Hh. split.
  - intros ->. split.
    + rewrite <- main_pass_ticked_0. exact E0.
    + vm_compute in P0, P2, P3.
      match type of P1' with
      | ?l = _ => let v := eval vm_compute in l in change l with v in P1'
      end.
      injection P0 as <-. injection P2 as <-. injection P3 as <-.
      injection P1' as P1'.
      assert (b1 = 0x40) by lia. subst b1. reflexivity.
  - intros ->.
    vm_compute in P0, P2, P3.
    match type of P1' with
    | ?l = _ => let v := eval vm_compute in l in change l with v in P1'
    end.
    injection P0 as <-. injection P2 as <-. injection P3 as <-.
    injection P1' as P1'.
    assert (b1 = 0x40) by lia. subst b1. reflexivity.
Qed.

Lemma X14_reset_pass_shows_elapsed_witness :
  let t := mkTime (Z.of_nat 1 mod 60) ((Z.of_nat 1 / 60) mod 100) in
  exists h b0 b1 b2 b3,
    main_pass_ticked (mkInputs 0 1 777) 1 (mkWorld (mkTime 41 87) hw_init)
      = Some (mkWorld t h) /\
    log h = log hw_init ++ [Sleep 200]
              ++ frame_events b0 0x01 ++ frame_events b1 0x02
              ++ frame_events b2 0x04 ++ frame_events b3 0x08 /\
    index digitPattern (minutes t / 10) = Some b0 /\
    index digitPattern (minutes t mod 10) = Some (b1 + 0x80) /\
    index digitPattern (seconds t / 10) = Some b2 /\
    index digitPattern (seconds t mod 10) = Some b3 /\
    (1%nat = 0%nat ->
       main_pass (mkInputs 0 1 777) (mkWorld (mkTime 41 87) hw_init)
         = Some (mkWorld (mkTime 0 0) h) /\
       [b0; b1; b2; b3] = [0xC0; 0x40; 0xC0; 0xC0]) /\
    (1%nat = 1%nat -> [b0; b1; b2; b3] = [0xC0; 0x40; 0xC0; 0xF9]).
Proof.
  apply (X14_reset_pass_shows_elapsed (mkInputs 0 1 777) 1
           (mkWorld (mkTime 41 87) hw_init));
    [reflexivity | discriminate].
Defined.

Lemma sys_run_safe (ops : list sys_op) : forall w,
  in_range (clock w) -> Forall sys_op_ok ops ->
  exists w', sys_run ops w = Some w' /\ in_range (clock w').
Proof.
  induction ops as [| o ops IH]; intros w Hr Hok.
  - exists w. split; [reflexivity | exact Hr].
  - inversion_clear Hok as [| ? ? Ho Hrest].
    destruct o as [| i]; cbn [sys_run].
    + apply IH; [| exact Hrest]. cbn [clock].
      apply ClockFacts.updateTime_in_range, Hr.
    + destruct (main_pass_safe i w Ho Hr) as (w1 & E & _ & Hr1 & _).
      rewrite E. apply IH; assumption.
Qed.

(** X15: from the state the program starts in, any sequence of ticker
    callbacks and passes of the loop with 16-bit samples runs to its
    end: no pass reads a table out of bounds and the counters stay
    within 0..59 seconds and 0..99 minutes throughout. *)
Theorem X15_program_safe (ops : list sys_op) :
  Forall sys_op_ok ops ->
  exists w, sys_run ops boot = Some w /\ in_range (clock w).
Proof.
  apply sys_run_safe. unfold in_range, boot, initial; cbn. lia.
Qed.

Lemma X15_program_safe_witness :
  exists w,
    sys_run [Pass (mkInputs 1 1 0); Isr; Pass (mkInputs 0 0 65535); Isr]
      boot = Some w /\
    in_range (clock w).
Proof.
  apply (X15_program_safe
           [Pass (mkInputs 1 1 0); Isr; Pass (mkInputs 0 0 65535); Isr]).
  repeat constructor; unfold is_sample; cbn; lia.
Defined.

End MainFacts.
